(** * Hand-hygiene dashboard: the CSV pipeline of [script.js]

    A shallow embedding of [processCSV], [parseCSVLine],
    [updateDashboardStats] and [updateTable], together with the JavaScript
    built-ins they call, and the properties of the pipeline.

    Conventions of the embedding:
    - a JavaScript string is a [string]; each [ascii] is one code unit in
      the range 0..255 (the Latin-1 part of UTF-16);
    - a value that may be [undefined] (an array read past its end) is an
      [option], with [None] for [undefined];
    - a time value (the result of [getTime()]) is an integer number of
      milliseconds, and [NaN] (an invalid date) is [None];
    - a Number in the percentage is a rational, an infinity or [NaN],
      and its division and multiplication round as binary64 does;
    - an exception is the left injection of a sum. *)

From Stdlib Require Import ZArith QArith Qround Ascii String Lia.
From Stdlib Require Import Sorting.Sorted Sorting.Permutation.
From Stdlib Require Import Floats.SpecFloat.
From stdpp Require Import gmap strings list.

Local Open Scope Z_scope.

(** ** String built-ins *)

Module JS.

  (** White space and line terminators removed by [String.prototype.trim],
      among the code units below 256: TAB, LF, VT, FF, CR, SP and NBSP. *)
Definition isWhiteSpace (c : ascii) : bool :=
    match c with
    | "009" | "010" | "011" | "012" | "013" | " " | "160" => true
    | _ => false
    end%char.

Fixpoint trimStart (s : string) : string :=
    match s with
    | EmptyString => EmptyString
    | String c s' => if isWhiteSpace c then trimStart s' else s
    end.

Fixpoint trimEnd (s : string) : string :=
    match s with
    | EmptyString => EmptyString
    | String c s' =>
        match trimEnd s' with
        | EmptyString => if isWhiteSpace c then EmptyString else String c EmptyString
        | t => String c t
        end
    end.

  (** [s.trim()] *)
Definition trim (s : string) : string := trimEnd (trimStart s).

  (** [s.split(sep)] for a separator of one code unit. The result is never
      empty: the empty string splits into one empty field. *)
Fixpoint split (sep : ascii) (s : string) : list string :=
    match s with
    | EmptyString => [EmptyString]
    | String c s' =>
        if Ascii.eqb c sep then EmptyString :: split sep s'
        else match split sep s' with
             | h :: t => String c h :: t
             | [] => [String c EmptyString]
             end
    end.

  (** [s.toLowerCase()] on one code unit: A-Z, and the Latin-1 capitals
      U+00C0..U+00DE except the multiplication sign U+00D7. *)
Definition lowerChar (c : ascii) : ascii :=
    let n := nat_of_ascii c in
    if ((65 <=? n) && (n <=? 90))%nat
       || ((192 <=? n) && (n <=? 222) && negb (n =? 215))%nat
    then ascii_of_nat (n + 32) else c.

Fixpoint toLowerCase (s : string) : string :=
    match s with
    | EmptyString => EmptyString
    | String c s' => String (lowerChar c) (toLowerCase s')
    end.

  (** [s.includes(needle)] *)
Fixpoint includes (needle s : string) : bool :=
    String.prefix needle s
    || match s with
       | EmptyString => false
       | String _ s' => includes needle s'
       end.

  (** [s.replace(c, d)] with a one-unit string pattern: only the first
      occurrence is replaced. *)
Fixpoint replace (c d : ascii) (s : string) : string :=
    match s with
    | EmptyString => EmptyString
    | String x s' =>
        if Ascii.eqb x c then String d s' else String x (replace c d s')
    end.

  (** [s.slice(0, n)] *)
Definition slice0 (n : nat) (s : string) : string := String.substring 0 n s.

  (** [arr.findIndex(p)]: the first index whose element satisfies [p],
      or [-1]. *)
Fixpoint findIndex {A} (p : A -> bool) (l : list A) : Z :=
    match l with
    | [] => -1
    | x :: l' =>
        if p x then 0
        else let r := findIndex p l' in if r =? -1 then -1 else r + 1
    end.

  (** [arr[i]] for an index that is a non-negative integer. *)
Definition at_ {A} (l : list A) (i : Z) : option A :=
    if i <? 0 then None else l !! Z.to_nat i.

  (** [s.split(sep)[0]] *)
Definition splitFirst (sep : ascii) (s : string) : string :=
    match split sep s with
    | h :: _ => h
    | [] => EmptyString
    end.

End JS.

(** ** Dates *)

Module JSDate.

Definition msPerDay : Z := 86400000.

  (** The largest magnitude of a valid time value; [new Date(v)] is an
      invalid date beyond it. *)
Definition maxTime : Z := 8640000000000000.

Definition validTime (t : Z) : bool := Z.abs t <=? maxTime.

  (** Gregorian calendar date [(year, month, day)] of a day number counted
      from 1970-01-01. *)
Definition civilFromDays (days : Z) : Z * Z * Z :=
    let z := days + 719468 in
    let era := z / 146097 in
    let doe := z - era * 146097 in
    let yoe := (doe - doe / 1460 + doe / 36524 - doe / 146096) / 365 in
    let doy := doe - (365 * yoe + yoe / 4 - yoe / 100) in
    let mp := (5 * doy + 2) / 153 in
    let d := doy - (153 * mp + 2) / 5 + 1 in
    let m := if mp <? 10 then mp + 3 else mp - 9 in
    let y := yoe + era * 400 in
    (if m <=? 2 then y + 1 else y, m, d).

  (** Day number of a calendar date, the inverse of [civilFromDays]. *)
Definition daysFromCivil (y m d : Z) : Z :=
    let y' := if m <=? 2 then y - 1 else y in
    let era := y' / 400 in
    let yoe := y' - era * 400 in
    let mp := if m <=? 2 then m + 9 else m - 3 in
    let doy := (153 * mp + 2) / 5 + d - 1 in
    let doe := yoe * 365 + yoe / 4 - yoe / 100 + doy in
    era * 146097 + doe - 719468.

Definition digit (n : Z) : ascii := ascii_of_nat (48 + Z.to_nat (n mod 10)).

  (** The [w] low decimal digits of [n], most significant first. *)
Fixpoint pad (w : nat) (n : Z) : string :=
    match w with
    | O => EmptyString
    | S w' => pad w' (n / 10) +:+ String (digit n) EmptyString
    end.

Definition yearString (y : Z) : string :=
    if (0 <=? y) && (y <=? 9999) then pad 4 y
    else if y <? 0 then String "-" (pad 6 (- y))
    else String "+" (pad 6 y).

  (** [new Date(t).toISOString()] for a valid time value [t]: the UTC
      calendar date and time of day. *)
Definition toISOString (t : Z) : string :=
    let '(y, m, d) := civilFromDays (t / msPerDay) in
    let ms := t mod msPerDay in
    yearString y +:+ "-" +:+ pad 2 m +:+ "-" +:+ pad 2 d +:+ "T"
      +:+ pad 2 (ms / 3600000) +:+ ":" +:+ pad 2 (ms / 60000 mod 60) +:+ ":"
      +:+ pad 2 (ms / 1000 mod 60) +:+ "." +:+ pad 3 (ms mod 1000) +:+ "Z".

End JSDate.

(** ** Numbers

    A finite Number is the rational it denotes; the other Numbers are the
    two infinities and [NaN], and [-0] is not told apart from [0].
    Division and multiplication round their exact result to the nearest
    binary64 value, a tie going to the even significand. An integer below
    2^53 in magnitude (a literal, the size of a set) is exact. *)

Module JSNum.

Inductive number : Type :=
| Fin (q : Q)
| PosInf
| NegInf
| NaN.

Definition ofZ (z : Z) : number := Fin (inject_Z z).

(** The floor of the binary logarithm of [n / d]. *)
Definition ilog2 (n d : positive) : Z :=
  let l := Z.log2 (Z.pos n) - Z.log2 (Z.pos d) in
  if (if 0 <=? l then Z.pos d * 2 ^ l <=? Z.pos n
      else Z.pos d <=? Z.pos n * 2 ^ (- l))
  then l else l - 1.

(** The binary64 value nearest to [n / d]: a significand [m] of at most 53
    bits at the exponent [e], never below the exponent of the subnormal
    numbers; [None] when the rounded value is out of range. *)
Definition roundMagnitude (n d : positive) : option Q :=
  let e := Z.max (ilog2 n d - 52) (-1074) in
  let N := if 0 <=? e then Z.pos n else Z.pos n * 2 ^ (- e) in
  let D := if 0 <=? e then Z.pos d * 2 ^ e else Z.pos d in
  let f := N / D in
  let m := match 2 * (N mod D) ?= D with
           | Lt => f
           | Gt => f + 1
           | Eq => if Z.even f then f else f + 1
           end in
  if 0 <=? e
  then (if 2 ^ 1024 <=? m * 2 ^ e then None else Some (inject_Z (m * 2 ^ e)))
  else Some (m # Z.to_pos (2 ^ (- e))).

Definition round64 (q : Q) : number :=
  match Qnum q with
  | Z0 => Fin 0
  | Z.pos n =>
      match roundMagnitude n (Qden q) with
      | Some v => Fin v
      | None => PosInf
      end
  | Z.neg n =>
      match roundMagnitude n (Qden q) with
      | Some v => Fin (- v)
      | None => NegInf
      end
  end.

Definition signed (c : comparison) : number :=
  match c with
  | Gt => PosInf
  | Lt => NegInf
  | Eq => NaN
  end.

(** [x / y] *)
Definition div (x y : number) : number :=
  match x, y with
  | NaN, _ | _, NaN => NaN
  | Fin a, Fin b =>
      if Qeq_bool b 0 then signed (a ?= 0)%Q else round64 (a / b)
  | Fin _, _ => Fin 0
  | PosInf, Fin b => if Qle_bool 0 b then PosInf else NegInf
  | NegInf, Fin b => if Qle_bool 0 b then NegInf else PosInf
  | _, _ => NaN
  end.

(** [x * y] *)
Definition mul (x y : number) : number :=
  match x, y with
  | NaN, _ | _, NaN => NaN
  | Fin a, Fin b => round64 (a * b)
  | Fin a, PosInf | PosInf, Fin a => signed (a ?= 0)%Q
  | Fin a, NegInf | NegInf, Fin a => signed (0 ?= a)%Q
  | PosInf, PosInf | NegInf, NegInf => PosInf
  | _, _ => NegInf
  end.

(** [Math.round(x)]: the nearest integer, a tie going up. *)
Definition mathRound (x : number) : number :=
  match x with
  | Fin q => ofZ (Qfloor (q + (1 # 2)))
  | _ => x
  end.

(** [Math.min(x, y)] *)
Definition mathMin (x y : number) : number :=
  match x, y with
  | NaN, _ | _, NaN => NaN
  | NegInf, _ | _, NegInf => NegInf
  | PosInf, z | z, PosInf => z
  | Fin a, Fin b => if Qle_bool a b then x else y
  end.

(** [x >= y] *)
Definition geb (x y : number) : bool :=
  match x, y with
  | NaN, _ | _, NaN => false
  | PosInf, _ | _, NegInf => true
  | _, PosInf | NegInf, _ => false
  | Fin a, Fin b => Qle_bool b a
  end.

End JSNum.

(** ** The dashboard *)

Import JSNum.

(** One element of the [data] array built by [processCSV]: a parsed event.
    [name] is [None] when the row has no field at the name column. *)
Record entry : Type := Entry {
  name : option string;
  timestamp : string;
  date : string;
  isoTime : Z
}.

Inductive compliance : Type :=
| ComplianceHigh
| ComplianceMed
| ComplianceLow.

(** What [updateDashboardStats] writes to the page. *)
Record dashboard : Type := Dashboard {
  countToday : nat;
  hygienePercent : number;
  hygieneClass : compliance;
  lastWorker : option string;
  lastTime : string
}.

Definition TOTAL_WORKERS_ESTIMATE : Z := 50.

(** The percentage expression of [updateDashboardStats], with the
    configured estimate as an argument. *)
Definition percentOf (total : Z) (count : nat) : number :=
  mathMin (ofZ 100)
    (mathRound (mul (div (ofZ (Z.of_nat count)) (ofZ total)) (ofZ 100))).

Definition classify (percent : number) : compliance :=
  if geb percent (ofZ 80) then ComplianceHigh
  else if geb percent (ofZ 50) then ComplianceMed
  else ComplianceLow.

Definition updateDashboardStats
    (count : nat) (lastWorker : option string) (lastTime : string) : dashboard :=
  let percent := percentOf TOTAL_WORKERS_ESTIMATE count in
  Dashboard count percent (classify percent) lastWorker lastTime.

(** [arr.sort(cmp)]: a stable sort; an element is inserted before the first
    one that does not have to precede it. *)
Fixpoint insertBy {A} (cmp : A -> A -> Z) (x : A) (l : list A) : list A :=
  match l with
  | [] => [x]
  | y :: l' => if cmp x y <=? 0 then x :: l else y :: insertBy cmp x l'
  end.

Definition sortBy {A} (cmp : A -> A -> Z) (l : list A) : list A :=
  foldr (insertBy cmp) [] l.

(** [(a, b) => b.isoTime - a.isoTime] *)
Definition byTimeDesc (a b : entry) : Z := isoTime b - isoTime a.

(** [updateTable]: the rows appended to the table body, in order, or
    [None] when the page has no table body and the function returns at
    once. *)
Definition updateTable (tableBody : bool) (data : list entry) : option (list entry) :=
  if negb tableBody then None
  else Some (sortBy byTimeDesc data).

Definition parseCSVLine (text : string) : list string :=
  map JS.trim (JS.split "," text).

(** ** The pipeline *)

Inductive exn : Type :=
| TypeError   (** a method called on [undefined] *)
| RangeError. (** [toISOString] of an invalid date *)

(** The local variables of [processCSV] that the row loop updates. *)
Record loopState : Type := LoopState {
  data : list entry;
  uniqueWorkersToday : gset (option string);
  rawLastTime : Z;
  lastWorkerName : option string;
  lastWorkerTime : string
}.

Definition initialState : loopState :=
  LoopState [] ∅ 0 (Some "None") "No activity yet".

(** The ways a call of [processCSV] ends. *)
Inductive outcome : Type :=
| ReturnedEarly                  (** fewer than two lines: plain [return] *)
| FormattingError                (** [console.error], then [return] *)
| Thrown (e : exn)               (** an exception leaves the function *)
| Updated (stats : dashboard) (rows : option (list entry)).

Section Pipeline.

  (** [new Date(s).getTime()]: the time value of a date string, [None]
      for an invalid date. What strings other than the ISO format parse
      to is left to the engine. *)
Variable dateParse : string -> option Z.

  (** [new Date(t).getTimezoneOffset()], in minutes. *)
Variable getTimezoneOffset : Z -> Z.

  (** The time value of [new Date()], read once for the whole call. *)
Variable now : Z.

  (** Whether the page has the [tableBody] element. *)
Variable tableBody : bool.

  (** [new Date().toISOString().slice(0, 10)] *)
Definition todayString : string := JS.slice0 10 (JSDate.toISOString now).

  (** [new Date(t - offset * 60000).toISOString().split('T')[0]], which
      throws when the shifted time is out of range. *)
Definition localDateString (t : Z) : exn + string :=
    let shifted := t - getTimezoneOffset t * 60000 in
    if JSDate.validTime shifted
    then inr (JS.splitFirst "T" (JSDate.toISOString shifted))
    else inl RangeError.

Section Rows.

Variables (today : string) (nameIdx timeIdx : Z).

    (** The body of the [for] loop on one line of the document. *)
Definition rowStep (st : loopState) (rowUTC : string) : exn + loopState :=
      if String.eqb (JS.trim rowUTC) "" then inr st
      else
        let parts := parseCSVLine rowUTC in
        if (length parts <? 2)%nat then inr st
        else
          let name := JS.at_ parts nameIdx in
          match JS.at_ parts timeIdx with
          | None => inl TypeError
          | Some timestampStr =>
              let safeTimestamp := JS.replace " " "T" timestampStr in
              match dateParse safeTimestamp with
              | None => inr st
              | Some t =>
                  match localDateString t with
                  | inl e => inl e
                  | inr entryDateLocal =>
                      match localDateString now with
                      | inl e => inl e
                      | inr todayLocal =>
                          let simpleDatePart := JS.splitFirst " " timestampStr in
                          let st1 :=
                            if String.eqb simpleDatePart today
                            then LoopState
                                   (data st ++ [Entry name timestampStr simpleDatePart t])
                                   ({[ name ]} ∪ uniqueWorkersToday st)
                                   (rawLastTime st) (lastWorkerName st)
                                   (lastWorkerTime st)
                            else st in
                          if t >? rawLastTime st1
                          then inr (LoopState (data st1) (uniqueWorkersToday st1)
                                      t name timestampStr)
                          else inr st1
                      end
                  end
              end
          end.

    (** [for (let i = 1; i < lines.length; i++)] over the lines after the
        header. *)
Fixpoint forLoop (st : loopState) (rows : list string) : exn + loopState :=
      match rows with
      | [] => inr st
      | row :: rows' =>
          match rowStep st row with
          | inl e => inl e
          | inr st' => forLoop st' rows'
          end
      end.

End Rows.

Definition processCSV (csvText : string) : outcome :=
    let lines := JS.split "010" (JS.trim csvText) in
    if (length lines <? 2)%nat then ReturnedEarly
    else
      let today := todayString in
      let headers :=
        map (fun h => JS.toLowerCase (JS.trim h))
            (JS.split "," (default EmptyString (head lines))) in
      let nameIdx := JS.findIndex (JS.includes "name") headers in
      let timeIdx := JS.findIndex (JS.includes "timestamp") headers in
      if (nameIdx =? -1) || (timeIdx =? -1) then FormattingError
      else
        match forLoop today nameIdx timeIdx initialState (drop 1 lines) with
        | inl e => Thrown e
        | inr st =>
            Updated
              (updateDashboardStats (size (uniqueWorkersToday st))
                 (lastWorkerName st) (lastWorkerTime st))
              (updateTable tableBody (data st))
        end.

End Pipeline.

(** ** A reference engine

    An instance of the two date primitives on the ISO formats
    [YYYY-MM-DD] (a UTC date) and [YYYY-MM-DDTHH:mm:ss] (a local time),
    for a zone at a fixed offset from UTC. Every other string is an
    invalid date. It is used to run the pipeline on concrete documents. *)

Module Engine.

Definition digitValue (c : ascii) : option Z :=
    let n := nat_of_ascii c in
    if ((48 <=? n) && (n <=? 57))%nat then Some (Z.of_nat n - 48) else None.

Fixpoint decimalFrom (acc : Z) (s : string) : option Z :=
    match s with
    | EmptyString => Some acc
    | String c s' =>
        match digitValue c with
        | Some d => decimalFrom (10 * acc + d) s'
        | None => None
        end
    end.

Definition decimal (s : string) : option Z :=
    match s with
    | EmptyString => None
    | _ => decimalFrom 0 s
    end.

Definition isLeap (y : Z) : bool :=
    ((y mod 4 =? 0) && negb (y mod 100 =? 0)) || (y mod 400 =? 0).

Definition daysInMonth (y m : Z) : Z :=
    if m =? 2 then (if isLeap y then 29 else 28)
    else if (m =? 4) || (m =? 6) || (m =? 9) || (m =? 11) then 30
    else 31.

  (** Day number of [YYYY-MM-DD]. *)
Definition parseDay (s : string) : option Z :=
    if negb (String.length s =? 10)%nat then None
    else
      match decimal (String.substring 0 4 s), String.get 4 s,
            decimal (String.substring 5 2 s), String.get 7 s,
            decimal (String.substring 8 2 s) with
      | Some y, Some "-"%char, Some m, Some "-"%char, Some d =>
          if (1 <=? m) && (m <=? 12) && (1 <=? d) && (d <=? daysInMonth y m)
          then Some (JSDate.daysFromCivil y m d) else None
      | _, _, _, _, _ => None
      end.

  (** Milliseconds into the day of [HH:mm:ss]. *)
Definition parseClock (s : string) : option Z :=
    if negb (String.length s =? 8)%nat then None
    else
      match decimal (String.substring 0 2 s), String.get 2 s,
            decimal (String.substring 3 2 s), String.get 5 s,
            decimal (String.substring 6 2 s) with
      | Some h, Some ":"%char, Some mi, Some ":"%char, Some sec =>
          if (h <=? 23) && (mi <=? 59) && (sec <=? 59)
          then Some (h * 3600000 + mi * 60000 + sec * 1000) else None
      | _, _, _, _, _ => None
      end.

Section Zone.

    (** Minutes to add to local time to get UTC: 300 for UTC-5. *)
Variable offsetMinutes : Z.

Definition getTimezoneOffset (_ : Z) : Z := offsetMinutes.

Definition dateParse (s : string) : option Z :=
      match parseDay s with
      | Some day => Some (day * JSDate.msPerDay)
      | None =>
          match parseDay (String.substring 0 10 s), String.get 10 s,
                parseClock (String.substring 11 8 s) with
          | Some day, Some "T"%char, Some ms =>
              if (String.length s =? 19)%nat
              then Some (day * JSDate.msPerDay + ms + offsetMinutes * 60000)
              else None
          | _, _, _ => None
          end
      end.

End Zone.

End Engine.

(** The documents of the scenarios, at 2024-03-15 12:00:00 UTC. *)
Definition noon_2024_03_15 : Z := 1710504000000.

Definition scenario1 : string :=
  "Name,Timestamp
Alice,2024-03-15 08:00:00
Bob,2024-03-15 08:05:00
Alice,2024-03-14 09:00:00".

(** ** The entries that the loop builds

    The lines, the header and the column indices are the expressions of
    [processCSV] under their own names. [eventOfRow] is the loop body
    without its state: the entry that the loop builds for a line, or
    [None] for a line that it skips. *)

Definition documentLines (csvText : string) : list string :=
  JS.split "010" (JS.trim csvText).

Definition headerLabels (csvText : string) : list string :=
  map (fun h => JS.toLowerCase (JS.trim h))
      (JS.split "," (default EmptyString (head (documentLines csvText)))).

(** [headers.findIndex(h => h.includes(key))]: the first label that
    contains the key, [-1] when there is none. *)
Definition resolveColumn (key : string) (csvText : string) : Z :=
  JS.findIndex (JS.includes key) (headerLabels csvText).

Section Events.

Variable dateParse : string -> option Z.

(** The entry of a line, as the loop body builds it: the line is not
    blank, has at least two fields (the guard [parts.length < 2]) and a
    field at the timestamp column, and that field parses as a date once
    its first space is a [T]. The name is whatever [parts[nameIdx]] is,
    [undefined] included. The two exceptions of the loop body are not
    part of it. *)
Definition eventOfRow (nameIdx timeIdx : Z) (row : string) : option entry :=
    if String.eqb (JS.trim row) "" then None
    else
      let parts := parseCSVLine row in
      if (length parts <? 2)%nat then None
      else
        match JS.at_ parts timeIdx with
        | None => None
        | Some ts =>
            match dateParse (JS.replace " " "T" ts) with
            | None => None
            | Some t =>
                Some (Entry (JS.at_ parts nameIdx) ts (JS.splitFirst " " ts) t)
            end
        end.

(** The entries of the lines after the header, in encounter order. *)
Definition documentEvents (csvText : string) : list entry :=
    omap (eventOfRow (resolveColumn "name" csvText)
                     (resolveColumn "timestamp" csvText))
         (drop 1 (documentLines csvText)).

(** A line that the loop body skips: blank, fewer than two fields, or a
    timestamp that does not parse. *)
Definition skippedRow (timeIdx : Z) (row : string) : Prop :=
  JS.trim row = EmptyString
  \/ (length (parseCSVLine row) < 2)%nat
  \/ (exists ts, JS.at_ (parseCSVLine row) timeIdx = Some ts
        /\ dateParse (JS.replace " " "T" ts) = None).

End Events.

(** ** The specification's view of a document

    The definitions below follow the words of the specification: the
    date part of a timestamp, the parsed Events of a document and the
    count of today, the Event of the last access and the presented
    percentage. The theorems compare them with what the code computes. *)

(** The substring of [s] before its first [c]; all of [s] when there is
    none. *)
Fixpoint beforeFirst (c : ascii) (s : string) : string :=
  match s with
  | EmptyString => EmptyString
  | String x s' => if Ascii.eqb x c then EmptyString else String x (beforeFirst c s')
  end.

Definition datePart (e : entry) : string := beforeFirst " " (timestamp e).

(** The Events of a given day, by comparison of strings. *)
Definition onDay (today : string) (e : entry) : Prop := datePart e = today.

#[global] Instance onDay_dec today e : Decision (onDay today e).
Proof. unfold onDay. apply _. Defined.

Section SpecEvents.

Variable dateParse : string -> option Z.

(** The Event of a data row in the specification. A blank row gives
    none; a row with fewer fields than a required column index is
    discarded, so that the worker name and the raw timestamp are the
    fields at the two resolved columns; a row whose timestamp does not
    parse, its first space replaced by the date-time delimiter, is
    discarded. *)
Definition specEventOfRow (nameIdx timeIdx : Z) (row : string) : option entry :=
  if String.eqb (JS.trim row) "" then None
  else
    let fields := parseCSVLine row in
    match JS.at_ fields nameIdx, JS.at_ fields timeIdx with
    | Some workerName, Some timestampRaw =>
        match dateParse (JS.replace " " "T" timestampRaw) with
        | Some epochMillis =>
            Some (Entry (Some workerName) timestampRaw
                    (beforeFirst " " timestampRaw) epochMillis)
        | None => None
        end
    | _, _ => None
    end.

(** The parsed Events of a document: the Events of the lines after the
    header, in order of appearance. *)
Definition specEvents (csvText : string) : list entry :=
  omap (specEventOfRow (resolveColumn "name" csvText)
                       (resolveColumn "timestamp" csvText))
       (drop 1 (documentLines csvText)).

(** [todayCount]: the number of distinct worker names among the parsed
    Events whose date part is the today string. *)
Definition specTodayCount (today : string) (csvText : string) : nat :=
  length (remove_dups (name <$> filter (onDay today) (specEvents csvText))).

End SpecEvents.

(** The running maximum of the specification: a later Event replaces the
    best one only when it is strictly more recent. *)
Definition later (best : option entry) (e : entry) : option entry :=
  match best with
  | None => Some e
  | Some b => if isoTime b <? isoTime e then Some e else best
  end.

Definition latestEvent (events : list entry) : option entry :=
  foldl later None events.

(** [round(x)] of the specification, a tie going up. *)
Definition roundHalfUp (x : Q) : Z := Qfloor (x + (1 # 2)).

(** [min(100, round(100 * todayCount / totalEstimate))] *)
Definition specPercent (total : Z) (count : nat) : Z :=
  Z.min 100 (roundHalfUp (inject_Z 100 * inject_Z (Z.of_nat count) / inject_Z total)).

(** Most recent first. *)
Definition newestFirst (a b : entry) : Prop := isoTime b <= isoTime a.

(** The Events after 1970-01-01T00:00:00Z. *)
Definition afterEpoch (e : entry) : Prop := 0 < isoTime e.

#[global] Instance afterEpoch_dec e : Decision (afterEpoch e).
Proof. unfold afterEpoch. apply _. Defined.

(** The loop variables of the last access hold the Event [best], or
    their initial values when there is none. *)
Definition tracks (st : loopState) (best : option entry) : Prop :=
  match best with
  | None =>
      rawLastTime st = 0 /\ lastWorkerName st = Some "None"
      /\ lastWorkerTime st = "No activity yet"
  | Some e =>
      0 < isoTime e /\ rawLastTime st = isoTime e
      /\ lastWorkerName st = name e /\ lastWorkerTime st = timestamp e
  end.

(** ** The binary64 operations of the standard library

    [SFdiv] and [SFmul] at precision 53 are the reference against which
    [div] and [mul] are run. *)

Module Binary64.

Definition ofZ (z : Z) : spec_float := binary_normalize 53 1024 z 0 false.

(** The rational a finite value denotes. *)
Definition toQ (x : spec_float) : option Q :=
  match x with
  | S754_zero _ => Some 0%Q
  | S754_finite s m e =>
      let v := if 0 <=? e then inject_Z (Z.pos m * 2 ^ e)
               else Z.pos m # Z.to_pos (2 ^ (- e)) in
      Some (if s then Qopp v else v)
  | _ => None
  end.

Definition finite (x : number) : option Q :=
  match x with
  | Fin q => Some q
  | _ => None
  end.

Definition same (a b : option Q) : bool :=
  match a, b with
  | Some x, Some y => Qeq_bool x y
  | None, None => true
  | _, _ => false
  end.

(** [c / t] and [(c / t) * 100] are the same in both. *)
Definition agree (c t : Z) : bool :=
  same (toQ (SFdiv 53 1024 (ofZ c) (ofZ t))) (finite (div (JSNum.ofZ c) (JSNum.ofZ t)))
  && same (toQ (SFmul 53 1024 (SFdiv 53 1024 (ofZ c) (ofZ t)) (ofZ 100)))
          (finite (mul (div (JSNum.ofZ c) (JSNum.ofZ t)) (JSNum.ofZ 100))).

End Binary64.

(** ** Documents used as concrete inputs *)

Definition scenario1Stats : dashboard :=
  Dashboard 2 (ofZ 4) ComplianceLow (Some "Bob") "2024-03-15 08:05:00".

Definition scenario1Rows : list entry :=
  [Entry (Some "Bob") "2024-03-15 08:05:00" "2024-03-15" 1710489900000;
   Entry (Some "Alice") "2024-03-15 08:00:00" "2024-03-15" 1710489600000].

(** A single Event, one hour before the epoch. *)
Definition beforeEpochDocument : string :=
  "Name,Timestamp
Alice,1969-12-31 23:00:00".

(** A header without the two columns, and nothing else. *)
Definition unknownHeaderOnly : string := "X,Y".

(** A header without the two columns, and one row. *)
Definition unknownHeaderDocument : string :=
  "X,Y
1,2".

Definition headerOnly : string := "Name,Timestamp".

(** A body without any row that parses. *)
Definition noEventDocument : string :=
  "Name,Timestamp
Carol,not-a-date".

(** Three columns, and a first row that stops before the timestamp. *)
Definition shortRowDocument : string :=
  "Id,Name,Timestamp
1,Bob
2,Alice,2024-03-15 08:00:00".

(** Three columns, and a row that stops before the name. *)
Definition namelessRowDocument : string :=
  "Timestamp,Id,Name
2024-03-15 08:00:00,7".

(** 2024-03-16 04:30:00 UTC, which is 2024-03-15 23:30:00 in a zone five
    hours behind UTC. *)
Definition lateEvening : Z := 1710563400000.

Definition lateEveningDocument : string :=
  "Name,Timestamp
Alice,2024-03-15 23:00:00".


(** ** The rest of the page

    The time cell of a table row, the empty-state element and
    [fetchData], which calls [processCSV] on the text it has fetched. *)

(** The number of code units of [s] equal to [c]. *)
Fixpoint countChar (c : ascii) (s : string) : nat :=
  match s with
  | EmptyString => 0%nat
  | String x s' => ((if Ascii.eqb x c then 1 else 0) + countChar c s')%nat
  end.

(** Only white space. *)
Fixpoint allWhiteSpace (s : string) : bool :=
  match s with
  | EmptyString => true
  | String c s' => JS.isWhiteSpace c && allWhiteSpace s'
  end.

(** [row.timestamp.split(' ')[1] || row.timestamp]: the second piece of
    the timestamp, or the whole timestamp when that piece is missing or
    empty. *)
Definition timeOnly (timestamp : string) : string :=
  match JS.split " " timestamp !! 1%nat with
  | Some t => if String.eqb t "" then timestamp else t
  | None => timestamp
  end.

(** The empty-state element: its [style.display] and its markup. *)
Record banner : Type := Banner {
  display : string;
  content : string
}.

(** What the page shows: the statistics last written ([None] before the
    first update), the rows of the table body and the empty-state
    element, the last two being [None] when the page lacks the element. *)
Record page : Type := Page {
  shownStats : option dashboard;
  tableRows : option (list entry);
  emptyState : option banner
}.

Definition noRecordsMessage : string :=
  "No hand washing records found for today.".

Definition waitingMessage : string :=
  "<p><strong>Waiting for Data Connection</strong></p><p>Ensure 'LoginInfo.csv' is generated and access via a local server.</p>".

(** [if (elements.emptyState) { style.display = d; content = c }], the
    content being left as it is when [c] is [None]. *)
Definition setBanner (d : string) (c : option string) (el : option banner)
    : option banner :=
  match el with
  | None => None
  | Some b => Some (Banner d (default (content b) c))
  end.

Definition hasTableBody (p : page) : bool :=
  match tableRows p with
  | Some _ => true
  | None => false
  end.

(** What a call of [processCSV] that ended with [o] has written to the
    page: nothing unless it reached [updateDashboardStats] and
    [updateTable]; the latter replaces the rows, and shows the
    empty-state element with its message when there is no row, hides it
    otherwise. *)
Definition applyOutcome (o : outcome) (p : page) : page :=
  match o with
  | Updated stats rows =>
      Page (Some stats)
        (match rows with
         | Some r => Some r
         | None => tableRows p
         end)
        (match rows with
         | None => emptyState p
         | Some [] => setBanner "block" (Some noRecordsMessage) (emptyState p)
         | Some (_ :: _) => setBanner "none" None (emptyState p)
         end)
  | _ => p
  end.

Section Fetch.

Variable dateParse : string -> option Z.
Variable getTimezoneOffset : Z -> Z.
Variable now : Z.

(** [fetchData], given what the request returned: [None] when the
    request failed or the response was not ok, the text otherwise. An
    exception of [processCSV] is caught like a failed request. *)
Definition fetchData (response : option string) (p : page) : page :=
  match response with
  | Some text =>
      match processCSV dateParse getTimezoneOffset now (hasTableBody p) text with
      | Thrown _ =>
          Page (shownStats p) (tableRows p)
            (setBanner "block" (Some waitingMessage) (emptyState p))
      | o =>
          let p' := applyOutcome o p in
          Page (shownStats p') (tableRows p')
            (setBanner "none" None (emptyState p'))
      end
  | None =>
      Page (shownStats p) (tableRows p)
        (setBanner "block" (Some waitingMessage) (emptyState p))
  end.

End Fetch.

(** A page with all its elements, before the first refresh. *)
Definition freshPage : page := Page None (Some []) (Some (Banner "none" "")).

(** An engine that parses one string only: the last instant of the range
    of dates, written in UTC. *)
Definition edgeParse (s : string) : option Z :=
  if String.eqb s "+275760-09-13T00:00:00Z" then Some JSDate.maxTime else None.

(** A row at the last instant of the range of dates. *)
Definition edgeRow : string := "Zoe,+275760-09-13 00:00:00Z".

(** A single Event, of the day before. *)
Definition yesterdayDocument : string :=
  "Name,Timestamp
Alice,2024-03-14 09:00:00".

(** * Properties *)

(** ** The built-ins on concrete inputs *)

Example trim_ex : JS.trim "  a b
" = "a b".
Proof. reflexivity. Qed.

Example split_ex : JS.split "," "a,,b," = ["a"; ""; "b"; ""].
Proof. reflexivity. Qed.

Example lower_ex : JS.toLowerCase "Worker NAME" = "worker name".
Proof. reflexivity. Qed.

Example findIndex_ex :
  JS.findIndex (JS.includes "name") ["id"; "worker name"; "timestamp"] = 1.
Proof. reflexivity. Qed.

Example toISOString_ex :
  JSDate.toISOString 1710477000123 = "2024-03-15T04:30:00.123Z".
Proof. reflexivity. Qed.

Example toISOString_before_epoch :
  JSDate.toISOString (-1) = "1969-12-31T23:59:59.999Z".
Proof. reflexivity. Qed.

Example toISOString_leap_day :
  JSDate.toISOString (JSDate.daysFromCivil 2024 2 29 * JSDate.msPerDay)
  = "2024-02-29T00:00:00.000Z".
Proof. reflexivity. Qed.

Example toISOString_last_day :
  JSDate.toISOString JSDate.maxTime = "+275760-09-13T00:00:00.000Z".
Proof. reflexivity. Qed.

Example percent_20_of_50 : percentOf 50 20 = ofZ 40.
Proof. reflexivity. Qed.

Example percent_clamped : percentOf 10 12 = ofZ 100.
Proof. reflexivity. Qed.

Example percent_9_of_20 : percentOf 20 9 = ofZ 45 /\ classify (percentOf 20 9) = ComplianceLow.
Proof. split; reflexivity. Qed.

Example percent_tie_up : percentOf 8 1 = ofZ 13.
Proof. reflexivity. Qed.

Example sortBy_ties_ex :
  sortBy byTimeDesc
    [Entry (Some "a") "" "" 5; Entry (Some "b") "" "" 9; Entry (Some "c") "" "" 5]
  = [Entry (Some "b") "" "" 9; Entry (Some "a") "" "" 5; Entry (Some "c") "" "" 5].
Proof. reflexivity. Qed.

Example dateParse_local :
  Engine.dateParse 0 "2024-03-15T08:05:00" = Some 1710489900000.
Proof. reflexivity. Qed.

Example dateParse_zone :
  Engine.dateParse 300 "2024-03-15T23:00:00" = Some 1710561600000
  /\ JSDate.toISOString 1710561600000 = "2024-03-16T04:00:00.000Z".
Proof. split; reflexivity. Qed.

Example dateParse_date_only :
  Engine.dateParse 300 "2024-03-15" = Some 1710460800000.
Proof. reflexivity. Qed.

Example dateParse_invalid :
  Engine.dateParse 0 "not-a-date" = None /\ Engine.dateParse 0 "2024-02-30" = None
  /\ Engine.dateParse 0 "NoTactivity yet" = None.
Proof. repeat split; reflexivity. Qed.

Example scenario1_runs :
  processCSV (Engine.dateParse 0) (Engine.getTimezoneOffset 0) noon_2024_03_15 true
    scenario1
  = Updated
      (Dashboard 2 (ofZ 4) ComplianceLow (Some "Bob") "2024-03-15 08:05:00")
      (Some [Entry (Some "Bob") "2024-03-15 08:05:00" "2024-03-15" 1710489900000;
             Entry (Some "Alice") "2024-03-15 08:00:00" "2024-03-15" 1710489600000]).
Proof. vm_compute. reflexivity. Qed.

(** [div] and [mul] agree with the binary64 operations of the standard
    library on every quotient [c / t] and product [(c / t) * 100] with
    [c < 130] and [0 < t <= 60], on subnormal results and at the overflow
    threshold. *)
Example round64_agrees_with_SpecFloat :
  forallb (fun t => forallb (fun c => Binary64.agree (Z.of_nat c) (Z.of_nat t))
                      (seq 0 130)) (seq 1 60) = true
  /\ Binary64.agree 1 (2 ^ 1023) = true
  /\ Binary64.agree (2 ^ 1023) 1 = true
  /\ Binary64.agree (2 ^ 1000) 3 = true
  /\ Binary64.same
       (Binary64.toQ (SFdiv 53 1024 (SFdiv 53 1024 (Binary64.ofZ 5)
                                       (Binary64.ofZ (2 ^ 1023)))
                        (Binary64.ofZ (3 * 2 ^ 50))))
       (Binary64.finite (div (div (ofZ 5) (ofZ (2 ^ 1023))) (ofZ (3 * 2 ^ 50))))
     = true
  /\ SFmul 53 1024 (Binary64.ofZ (2 ^ 1023)) (Binary64.ofZ 2) = S754_infinity false
  /\ mul (ofZ (2 ^ 1023)) (ofZ 2) = PosInf.
Proof. repeat split; vm_compute; reflexivity. Qed.

Example percent_23_of_40 : percentOf 40 23 = ofZ 57.
Proof. vm_compute. reflexivity. Qed.

(** ** Strings *)

Lemma split_not_nil c s : JS.split c s <> [].
Proof.
  destruct s as [|x s]; simpl; [discriminate|].
  destruct (Ascii.eqb x c); [discriminate|].
  destruct (JS.split c s); discriminate.
Qed.

(** [s.split(c)[0]] is the substring before the first [c]. *)
Lemma splitFirst_beforeFirst c s : JS.splitFirst c s = beforeFirst c s.
Proof.
  unfold JS.splitFirst.
  induction s as [|x s IH]; simpl; [reflexivity|].
  destruct (Ascii.eqb x c); [reflexivity|].
  pose proof (split_not_nil c s) as Hne.
  destruct (JS.split c s) as [|h t]; [contradiction|].
  now rewrite IH.
Qed.

Lemma includes_one_cons c x s :
  JS.includes (String c EmptyString) (String x s)
  = Ascii.eqb x c || JS.includes (String c EmptyString) s.
Proof.
  simpl. destruct (ascii_dec c x) as [->|Hne].
  - rewrite Ascii.eqb_refl. now destruct s.
  - destruct (Ascii.eqb_spec x c) as [->|_]; [contradiction|reflexivity].
Qed.



Lemma findIndex_range {A} (p : A -> bool) l :
  JS.findIndex p l = -1 \/ 0 <= JS.findIndex p l < Z.of_nat (length l).
Proof.
  induction l as [|x l IH]; simpl; [now left|].
  destruct (p x); [right; lia|].
  destruct (Z.eqb_spec (JS.findIndex p l) (-1)); [now left|right; lia].
Qed.

(** ** The row loop *)

Section LoopFacts.

Variable dateParse : string -> option Z.
Variable getTimezoneOffset : Z -> Z.
Variables (now : Z) (today : string) (nameIdx timeIdx : Z).

Local Abbreviation step := (rowStep dateParse getTimezoneOffset now today nameIdx timeIdx).
Local Abbreviation loop := (forLoop dateParse getTimezoneOffset now today nameIdx timeIdx).
Local Abbreviation event := (eventOfRow dateParse nameIdx timeIdx).

  (** A row that does not throw either is skipped and leaves the state as
      it is, or yields its Event, which is appended when it is of today
      and replaces the last access when it is strictly more recent. *)
Lemma rowStep_inr st row st' :
    step st row = inr st' ->
    match event row with
    | None => st' = st
    | Some e =>
        data st' = data st ++ (if decide (onDay today e) then [e] else [])
        /\ uniqueWorkersToday st'
           = (if decide (onDay today e) then {[ name e ]} else ∅)
               ∪ uniqueWorkersToday st
        /\ (if rawLastTime st <? isoTime e
            then rawLastTime st' = isoTime e /\ lastWorkerName st' = name e
                 /\ lastWorkerTime st' = timestamp e
            else rawLastTime st' = rawLastTime st
                 /\ lastWorkerName st' = lastWorkerName st
                 /\ lastWorkerTime st' = lastWorkerTime st)
    end.
Proof.
    unfold rowStep, eventOfRow.
    destruct (String.eqb (JS.trim row) ""); [congruence|].
    destruct (length (parseCSVLine row) <? 2)%nat; [congruence|].
    destruct (JS.at_ (parseCSVLine row) timeIdx) as [ts|]; [|discriminate].
    destruct (dateParse (JS.replace " " "T" ts)) as [t|]; [|congruence].
    destruct (localDateString getTimezoneOffset t); [discriminate|].
    destruct (localDateString getTimezoneOffset now); [discriminate|].
    rewrite splitFirst_beforeFirst. unfold onDay, datePart. cbn [timestamp name isoTime].
    rewrite Z.gtb_ltb.
    destruct (String.eqb_spec (beforeFirst " " ts) today) as [Heq|Hne];
      cbn [rawLastTime data uniqueWorkersToday lastWorkerName lastWorkerTime];
      destruct (rawLastTime st <? t); intros [= <-]; cbn;
      repeat case_decide; try contradiction;
      rewrite ?app_nil_r, ?(left_id_L ∅ (∪)); auto.
Qed.

  (** The [data] array collects the Events of today, in encounter order. *)
Lemma loop_data rows : forall st st',
    loop st rows = inr st' ->
    data st' = data st ++ filter (onDay today) (omap event rows).
Proof.
    induction rows as [|row rows IH]; intros st st'; simpl.
    - intros [= <-]. now rewrite app_nil_r.
    - destruct (step st row) as [|st1] eqn:Hstep; [discriminate|].
      intros Hloop. apply IH in Hloop. apply rowStep_inr in Hstep.
      destruct (event row) as [e|]; [|now subst].
      destruct Hstep as (Hd & _). rewrite Hloop, Hd, filter_cons.
      destruct (decide (onDay today e)); now rewrite <- app_assoc.
Qed.

  (** The set collects the names of the Events of today. *)
Lemma loop_workers rows : forall st st',
    loop st rows = inr st' ->
    uniqueWorkersToday st'
    = list_to_set (name <$> filter (onDay today) (omap event rows))
        ∪ uniqueWorkersToday st.
Proof.
    induction rows as [|row rows IH]; intros st st'; simpl.
    - intros [= <-]. now rewrite (left_id_L ∅ (∪)).
    - destruct (step st row) as [|st1] eqn:Hstep; [discriminate|].
      intros Hloop. apply IH in Hloop. apply rowStep_inr in Hstep.
      destruct (event row) as [e|]; [|now subst].
      destruct Hstep as (_ & Hu & _). rewrite Hloop, Hu, filter_cons.
      destruct (decide (onDay today e)); rewrite ?fmap_cons, ?list_to_set_cons;
      apply set_eq; intros x; rewrite !elem_of_union, ?elem_of_empty; tauto.
Qed.

  (** The last access follows the running maximum over the Events after
      the epoch. *)
Lemma loop_last rows : forall st st' best,
    loop st rows = inr st' ->
    tracks st best ->
    tracks st' (foldl later best (filter afterEpoch (omap event rows))).
Proof.
    induction rows as [|row rows IH]; intros st st' best; simpl.
    - now intros [= <-].
    - destruct (step st row) as [|st1] eqn:Hstep; [discriminate|].
      intros Hloop Htr. apply rowStep_inr in Hstep.
      destruct (event row) as [e|]; [|subst st1; now apply (IH st)].
      destruct Hstep as (_ & _ & Hl).
    assert (tracks st1 (if decide (afterEpoch e) then later best e else best))
      as Hst1.
    { unfold tracks, afterEpoch, later in *.
      destruct best as [b|].
      - destruct Htr as (Hb & Hm & Hn & Ht). rewrite Hm in Hl.
        destruct (Z.ltb_spec (isoTime b) (isoTime e)) as [Hlt|Hge].
        + rewrite decide_True by lia. intuition lia.
        + destruct (decide (0 < isoTime e)); intuition congruence.
      - destruct Htr as (Hm & Hn & Ht). rewrite Hm in Hl.
        destruct (Z.ltb_spec 0 (isoTime e)) as [Hlt|Hge].
        + rewrite decide_True by lia. intuition lia.
        + rewrite decide_False by lia. intuition congruence. }
    rewrite filter_cons.
    destruct (decide (afterEpoch e)); simpl; now apply (IH st1).
Qed.

End LoopFacts.

(** ** The running maximum *)

Lemma later_fold l : forall b e,
  foldl later (Some b) l = Some e ->
  (e = b /\ Forall (fun x => isoTime x <= isoTime b) l)
  \/ (exists l1 l2, l = l1 ++ e :: l2 /\ isoTime b < isoTime e
        /\ Forall (fun x => isoTime x < isoTime e) l1
        /\ Forall (fun x => isoTime x <= isoTime e) l2).
Proof.
  induction l as [|x l IH]; intros b e; simpl.
  - intros [= ->]. left. split; [reflexivity|constructor].
  - destruct (Z.ltb_spec (isoTime b) (isoTime x)) as [Hlt|Hge]; intros Hf;
      apply IH in Hf; destruct Hf as [[-> Hall]|(l1 & l2 & -> & Hlt' & H1 & H2)].
    + right. exists [], l. repeat split; auto.
    + right. exists (x :: l1), l2.
      repeat split; auto; try lia; try (constructor; [lia|auto]).
    + left. split; [reflexivity|]. constructor; [lia|auto].
    + right. exists (x :: l1), l2.
      repeat split; auto; try lia; try (constructor; [lia|auto]).
Qed.

(** [latestEvent] is the first Event of maximal time. *)
Lemma latestEvent_first_max l e :
  latestEvent l = Some e ->
  exists l1 l2, l = l1 ++ e :: l2
    /\ Forall (fun x => isoTime x < isoTime e) l1
    /\ Forall (fun x => isoTime x <= isoTime e) l2.
Proof.
  unfold latestEvent. destruct l as [|x l]; simpl; [discriminate|].
  intros [[-> Hall]|(l1 & l2 & -> & Hlt & H1 & H2)]%later_fold.
  - exists [], l. repeat split; auto.
  - exists (x :: l1), l2. repeat split; auto; try lia; try (constructor; [lia|auto]).
Qed.

Lemma latestEvent_None l : latestEvent l = None <-> l = [].
Proof.
  unfold latestEvent. split; [|now intros ->].
  destruct l as [|x l]; [reflexivity|]. simpl.
  assert (forall k b, foldl later (Some b) k <> None) as Hsome.
  { induction k as [|y k IH]; intros b; simpl; [discriminate|].
    destruct (isoTime b <? isoTime y); apply IH. }
  intros H. now apply Hsome in H.
Qed.

(** ** The sort of [updateTable] *)

Lemma insertBy_perm {A} (cmp : A -> A -> Z) x l : insertBy cmp x l ≡ₚ x :: l.
Proof.
  induction l as [|y l IH]; simpl; [reflexivity|].
  destruct (cmp x y <=? 0); [reflexivity|].
  rewrite IH. apply perm_swap.
Qed.

Lemma sortBy_perm {A} (cmp : A -> A -> Z) l : sortBy cmp l ≡ₚ l.
Proof.
  induction l as [|x l IH]; simpl; [reflexivity|].
  unfold sortBy in IH. now rewrite insertBy_perm, IH.
Qed.

Lemma insertBy_sorted x l :
  StronglySorted newestFirst l -> StronglySorted newestFirst (insertBy byTimeDesc x l).
Proof.
  unfold newestFirst, byTimeDesc.
  induction 1 as [|y l Hs IH Hall]; simpl.
  - repeat constructor.
  - destruct (Z.leb_spec (isoTime y - isoTime x) 0) as [Hle|Hgt].
    + constructor; [now constructor|].
      constructor; [lia|]. eapply Forall_impl; [exact Hall|]. simpl. intros; lia.
    + constructor; [exact IH|].
      rewrite insertBy_perm. constructor; [lia|exact Hall].
Qed.

Lemma sortBy_sorted l : StronglySorted newestFirst (sortBy byTimeDesc l).
Proof.
  induction l as [|x l IH]; simpl; [constructor|]. now apply insertBy_sorted.
Qed.

(** The sort is stable: Events of equal time keep their order. *)
Lemma sortBy_stable t l :
  filter (fun e => isoTime e = t) (sortBy byTimeDesc l)
  = filter (fun e => isoTime e = t) l.
Proof.
  induction l as [|x l IH]; simpl; [reflexivity|].
  rewrite filter_cons, <- IH. unfold sortBy.
  generalize (foldr (insertBy byTimeDesc) [] l). clear IH.
  intros k. induction k as [|y k IHk]; simpl; [now rewrite filter_cons|].
  unfold byTimeDesc at 1.
  destruct (Z.leb_spec (isoTime y - isoTime x) 0) as [Hle|Hgt].
  - now rewrite (filter_cons _ x).
  - rewrite !(filter_cons _ y), IHk.
    repeat case_decide; try reflexivity; lia.
Qed.

(** ** Whole documents *)

Section DocumentFacts.

Variable dateParse : string -> option Z.
Variable getTimezoneOffset : Z -> Z.
Variable now : Z.
Variable tableBody : bool.

Local Abbreviation run := (processCSV dateParse getTimezoneOffset now tableBody).
Local Abbreviation events := (documentEvents dateParse).
Local Abbreviation today := (todayString now).

(** A call that reaches [updateDashboardStats] has run the loop to its
    end without an exception. *)
Lemma processCSV_Updated csvText stats rows :
  run csvText = Updated stats rows ->
  exists st,
    forLoop dateParse getTimezoneOffset now today
      (resolveColumn "name" csvText) (resolveColumn "timestamp" csvText)
      initialState (drop 1 (documentLines csvText)) = inr st
    /\ stats = updateDashboardStats (size (uniqueWorkersToday st))
                 (lastWorkerName st) (lastWorkerTime st)
    /\ rows = updateTable tableBody (data st).
Proof.
  unfold processCSV, resolveColumn, headerLabels, documentLines.
  destruct (length _ <? 2)%nat; [discriminate|].
  destruct (_ || _); [discriminate|].
  destruct (forLoop _ _ _ _ _ _ _ _) as [|st]; [discriminate|].
  intros [= <- <-]. now exists st.
Qed.

Lemma size_list_to_set_remove_dups (l : list (option string)) :
  size (list_to_set l : gset (option string)) = length (remove_dups l).
Proof.
  rewrite <- (size_list_to_set (C:=gset (option string)) (remove_dups l))
    by apply NoDup_remove_dups.
  f_equal. apply set_eq. intros x.
  now rewrite !elem_of_list_to_set, elem_of_remove_dups.
Qed.

Lemma last_access_is_latest csvText stats rows :
  run csvText = Updated stats rows ->
  match latestEvent (filter afterEpoch (events csvText)) with
  | Some e => lastWorker stats = name e /\ lastTime stats = timestamp e
  | None => lastWorker stats = Some "None" /\ lastTime stats = "No activity yet"
  end.
Proof.
  intros (st & Hloop & -> & _)%processCSV_Updated.
  apply (loop_last _ _ _ _ _ _ _ _ _ None) in Hloop; [|now repeat split].
  unfold latestEvent, documentEvents. cbn [updateDashboardStats lastWorker lastTime].
  destruct (foldl later None _); unfold tracks in Hloop; tauto.
Qed.

(** For every document that the pipeline processes to the end, the
    count is the number of distinct names among the entries that the
    loop has built and whose timestamp, up to its first space, is the
    today string. *)
Lemma count_is_distinct_names csvText stats rows :
  run csvText = Updated stats rows ->
  countToday stats
  = length (remove_dups (name <$> filter (onDay today) (events csvText))).
Proof.
  intros (st & Hloop & -> & _)%processCSV_Updated.
  apply loop_workers in Hloop. cbn [updateDashboardStats countToday].
  rewrite Hloop. cbn [initialState uniqueWorkersToday].
  rewrite (right_id_L ∅ (∪)). apply size_list_to_set_remove_dups.
Qed.

(** The timestamp of a parsed Event parses, once its first space is a
    [T]. *)
Lemma documentEvents_parse csvText e :
  e ∈ events csvText ->
  dateParse (JS.replace " " "T" (timestamp e)) = Some (isoTime e).
Proof.
  unfold documentEvents. intros (row & _ & Hrow)%list_elem_of_omap.
  revert Hrow. unfold eventOfRow.
  destruct (String.eqb (JS.trim row) ""); [discriminate|].
  destruct (length (parseCSVLine row) <? 2)%nat; [discriminate|].
  destruct (JS.at_ _ _) as [ts|]; [|discriminate].
  destruct (dateParse (JS.replace " " "T" ts)) as [t|] eqn:Hparse; [|discriminate].
  now intros [= <-].
Qed.

Lemma sentinel_time_iff csvText stats rows :
  run csvText = Updated stats rows ->
  dateParse "NoTactivity yet" = None ->
  lastTime stats = "No activity yet" <-> filter afterEpoch (events csvText) = [].
Proof.
  intros Hrun Hsentinel. apply last_access_is_latest in Hrun.
  destruct (latestEvent (filter afterEpoch (events csvText))) as [e|] eqn:Hlatest.
  - destruct Hrun as [_ Htime]. split.
    + intros Hlast. exfalso.
      apply latestEvent_first_max in Hlatest as (l1 & l2 & Hl & _).
      assert (e ∈ events csvText) as Hin.
      { eapply (proj1 (list_elem_of_filter afterEpoch _ e)).
        rewrite Hl. apply elem_of_app. right. left. }
      apply documentEvents_parse in Hin.
      rewrite <- Htime, Hlast in Hin. simpl in Hin. congruence.
    + intros Hnil. rewrite Hnil in Hlatest. discriminate.
  - apply latestEvent_None in Hlatest. tauto.
Qed.

(** C9. The rows that [updateTable] paints are the Events of today sorted
    by descending [epochMillis], most recent first, and Events of equal
    time keep their encounter order. *)
Theorem C9_rows_sorted_descending csvText stats rows :
  run csvText = Updated stats (Some rows) ->
  StronglySorted newestFirst rows
  /\ rows ≡ₚ filter (onDay today) (events csvText)
  /\ forall t, filter (fun e => isoTime e = t) rows
               = filter (fun e => isoTime e = t)
                   (filter (onDay today) (events csvText)).
Proof.
  intros (st & Hloop & _ & Hrows)%processCSV_Updated.
  apply loop_data in Hloop. cbn [initialState data app] in Hloop.
  unfold updateTable in Hrows. destruct (negb tableBody); [discriminate|].
  injection Hrows as ->. rewrite Hloop. unfold documentEvents.
  split; [apply sortBy_sorted|]. split; [apply sortBy_perm|].
  intros t. apply sortBy_stable.
Qed.

(** C7, as amended. When the document has at least two lines and the
    name or the timestamp column is not found among the lower-cased
    labels, the call reports the formatting error and returns: no loop
    runs and nothing is handed to the dashboard. *)
Theorem C7_missing_column_reported csvText :
  (2 <= length (documentLines csvText))%nat ->
  resolveColumn "name" csvText = -1 \/ resolveColumn "timestamp" csvText = -1 ->
  run csvText = FormattingError.
Proof.
  unfold processCSV, resolveColumn, headerLabels, documentLines.
  intros Hlen Hcol.
  destruct (Nat.ltb_spec (length (JS.split "010" (JS.trim csvText))) 2); [lia|].
  destruct Hcol as [-> | ->]; [reflexivity|].
  now rewrite orb_true_r.
Qed.

End DocumentFacts.

(** ** Single rows *)

Section RowFacts.

Variable dateParse : string -> option Z.
Variable getTimezoneOffset : Z -> Z.
Variables (now : Z) (today : string) (nameIdx timeIdx : Z).

Local Abbreviation step := (rowStep dateParse getTimezoneOffset now today nameIdx timeIdx).

(** A row that has two fields or more but none at the timestamp column
    makes the loop body throw. *)
Lemma rowStep_short_row st row :
  JS.trim row <> EmptyString ->
  (2 <= length (parseCSVLine row))%nat ->
  Z.of_nat (length (parseCSVLine row)) <= timeIdx ->
  step st row = inl TypeError.
Proof.
  intros Hrow Hlen Hidx. unfold rowStep.
  destruct (String.eqb_spec (JS.trim row) ""); [contradiction|].
  destruct (Nat.ltb_spec (length (parseCSVLine row)) 2); [lia|].
  unfold JS.at_. destruct (Z.ltb_spec timeIdx 0); [lia|].
  rewrite lookup_ge_None_2 by lia. reflexivity.
Qed.

(** A row whose timestamp does not parse is skipped. *)
Lemma rowStep_invalid_date st row ts :
  JS.at_ (parseCSVLine row) timeIdx = Some ts ->
  dateParse (JS.replace " " "T" ts) = None ->
  step st row = inr st.
Proof.
  intros Hts Hparse. unfold rowStep.
  destruct (String.eqb (JS.trim row) ""); [reflexivity|].
  destruct (length (parseCSVLine row) <? 2)%nat; [reflexivity|].
  now rewrite Hts, Hparse.
Qed.


End RowFacts.

(** ** Rounding to binary64 *)

Lemma ilog2_lower (n d : positive) :
  0 <= ilog2 n d -> Z.pos d * 2 ^ ilog2 n d <= Z.pos n.
Proof.
  unfold ilog2.
  set (l := Z.log2 (Z.pos n) - Z.log2 (Z.pos d)).
  destruct (Z.leb_spec 0 l) as [Hl|Hl].
  - destruct (Z.leb_spec (Z.pos d * 2 ^ l) (Z.pos n)) as [Hle|Hgt]; [auto|].
    intros Hl1.
    pose proof (Z.log2_spec (Z.pos n) eq_refl) as [Hn _].
    pose proof (Z.log2_spec (Z.pos d) eq_refl) as [_ Hd].
    pose proof (Z.log2_nonneg (Z.pos d)) as Hd0.
    replace (Z.log2 (Z.pos n)) with (Z.succ (Z.log2 (Z.pos d)) + (l - 1)) in Hn
      by (unfold l; lia).
    rewrite Z.pow_add_r in Hn by lia.
    assert (0 < 2 ^ (l - 1)) by (apply Z.pow_pos_nonneg; lia).
    nia.
  - destruct (Z.pos d <=? Z.pos n * 2 ^ (- l)); lia.
Qed.

(** Rounding does not go below an integer that the exact value reaches:
    integers up to 2^52 are binary64 values. *)
Lemma roundMagnitude_lower (n d : positive) (k : Z) :
  0 <= k <= 2 ^ 52 ->
  k * Z.pos d <= Z.pos n ->
  match roundMagnitude n d with
  | Some v => (inject_Z k <= v)%Q
  | None => True
  end.
Proof.
  intros Hk Hle. unfold roundMagnitude.
  set (e := Z.max (ilog2 n d - 52) (-1074)).
  set (N := if 0 <=? e then Z.pos n else Z.pos n * 2 ^ (- e)).
  set (D := if 0 <=? e then Z.pos d * 2 ^ e else Z.pos d).
  set (f := N / D).
  set (m := match 2 * (N mod D) ?= D with
            | Lt => f
            | Gt => f + 1
            | Eq => if Z.even f then f else f + 1
            end).
  assert (f <= m) as Hfm.
  { unfold m. destruct (2 * (N mod D) ?= D); [destruct (Z.even f)| |]; lia. }
  destruct (Z.leb_spec 0 e) as [He|He].
  - destruct (2 ^ 1024 <=? m * 2 ^ e); [exact I|].
    rewrite <- Zle_Qle.
    assert (0 < 2 ^ e) as Hpe by (apply Z.pow_pos_nonneg; lia).
    assert (ilog2 n d = e + 52) as Hlog by (unfold e in *; lia).
    pose proof (ilog2_lower n d) as Hlow. rewrite Hlog in Hlow.
    rewrite Z.pow_add_r in Hlow by lia.
    assert (2 ^ 52 <= f) as Hf.
    { unfold f, N, D. apply Z.div_le_lower_bound; lia. }
    nia.
  - assert (0 < 2 ^ (- e)) as Hpe by (apply Z.pow_pos_nonneg; lia).
    unfold Qle. cbn [Qnum Qden inject_Z]. rewrite Z2Pos.id by exact Hpe.
    assert (k * 2 ^ (- e) <= f) as Hf.
    { unfold f, N, D. apply Z.div_le_lower_bound; [lia|]. nia. }
    lia.
Qed.

Lemma round64_lower (q : Q) (k : Z) :
  0 <= k <= 2 ^ 52 ->
  (inject_Z k <= q)%Q ->
  round64 q = PosInf \/ exists v, round64 q = Fin v /\ (inject_Z k <= v)%Q.
Proof.
  intros Hk Hle. unfold round64.
  destruct q as [num den]. unfold Qle in Hle. cbn [Qnum Qden inject_Z] in *.
  destruct num as [|n|n]; try lia.
  - right. exists 0%Q. split; [reflexivity|].
    unfold Qle. cbn. lia.
  - pose proof (roundMagnitude_lower n den k Hk) as Hlow.
    destruct (roundMagnitude n den) as [v|]; [|now left].
    right. exists v. split; [reflexivity|]. apply Hlow. lia.
Qed.

(** Rounding to the nearest integer does not pass an integer that the
    exact value does not pass. *)
Lemma nearest_le (N D B : Z) :
  0 < D -> N <= B * D ->
  match 2 * (N mod D) ?= D with
  | Lt => N / D
  | Gt => N / D + 1
  | Eq => if Z.even (N / D) then N / D else N / D + 1
  end <= B.
Proof.
  intros HD HN.
  pose proof (Z.div_mod N D ltac:(lia)) as Hdm.
  pose proof (Z.mod_pos_bound N D HD) as Hr.
  assert (N / D <= B) as Hf by nia.
  assert (0 < N mod D -> N / D + 1 <= B) as Hf1 by (intros; nia).
  destruct (Z.compare_spec (2 * (N mod D)) D) as [Heq|Hlt|Hgt].
  - destruct (Z.even (N / D)); [exact Hf|apply Hf1; lia].
  - exact Hf.
  - apply Hf1; lia.
Qed.

(** Rounding does not go above a power of two that the exact value does
    not exceed, and does not overflow below 2^1024. *)
Lemma roundMagnitude_upper (n d : positive) (j : Z) :
  0 <= j <= 1023 ->
  Z.pos n <= 2 ^ j * Z.pos d ->
  exists v, roundMagnitude n d = Some v /\ (v <= inject_Z (2 ^ j))%Q.
Proof.
  intros Hj Hle. unfold roundMagnitude.
  set (e := Z.max (ilog2 n d - 52) (-1074)).
  set (N := if 0 <=? e then Z.pos n else Z.pos n * 2 ^ (- e)).
  set (D := if 0 <=? e then Z.pos d * 2 ^ e else Z.pos d).
  set (m := match 2 * (N mod D) ?= D with
            | Lt => N / D
            | Gt => N / D + 1
            | Eq => if Z.even (N / D) then N / D else N / D + 1
            end).
  assert (0 < 2 ^ j) as Hpj by (apply Z.pow_pos_nonneg; lia).
  destruct (Z.leb_spec 0 e) as [He|He].
  - assert (0 < 2 ^ e) as Hpe by (apply Z.pow_pos_nonneg; lia).
    assert (ilog2 n d = e + 52) as Hlog by (unfold e in *; lia).
    pose proof (ilog2_lower n d) as Hlow. rewrite Hlog in Hlow.
    assert (e + 52 <= j) as Hej.
    { apply (Z.pow_le_mono_r_iff 2); [lia|lia|]. nia. }
    assert (2 ^ j = 2 ^ (j - e) * 2 ^ e) as Hsplit
      by (rewrite <- Z.pow_add_r by lia; f_equal; lia).
    assert (m <= 2 ^ (j - e)) as Hm.
    { apply nearest_le; unfold N, D; nia. }
    assert (m * 2 ^ e <= 2 ^ j) as Hbound by nia.
    assert (2 ^ j < 2 ^ 1024) as Hlt by (apply Z.pow_lt_mono_r; lia).
    destruct (Z.leb_spec (2 ^ 1024) (m * 2 ^ e)); [lia|].
    eexists. split; [reflexivity|]. now rewrite <- Zle_Qle.
  - assert (0 < 2 ^ (- e)) as Hpe by (apply Z.pow_pos_nonneg; lia).
    assert (m <= 2 ^ j * 2 ^ (- e)) as Hm.
    { apply nearest_le; unfold N, D; nia. }
    eexists. split; [reflexivity|].
    unfold Qle. cbn [Qnum Qden inject_Z]. rewrite Z2Pos.id by exact Hpe. lia.
Qed.

(** A value that is not positive and not below [- 2^j] rounds to a value
    that is not positive. *)
Lemma round64_nonpositive (q : Q) (j : Z) :
  0 <= j <= 1023 ->
  (q <= 0)%Q -> (inject_Z (- 2 ^ j) <= q)%Q ->
  exists w, round64 q = Fin w /\ (w <= 0)%Q /\ (inject_Z (- 2 ^ j) <= w)%Q.
Proof.
  intros Hj Hle Hge. unfold round64.
  destruct q as [num den]. unfold Qle in Hle, Hge. cbn [Qnum Qden inject_Z] in *.
  destruct num as [|n|n]; try lia.
  - exists 0%Q. split; [reflexivity|]. unfold Qle. cbn.
    assert (0 < 2 ^ j) by (apply Z.pow_pos_nonneg; lia). lia.
  - destruct (roundMagnitude_upper n den j Hj) as (v & Hv & Hup); [lia|].
    pose proof (roundMagnitude_lower n den 0 ltac:(lia) ltac:(lia)) as Hlow.
    rewrite Hv in *. exists (- v)%Q. split; [reflexivity|].
    rewrite inject_Z_opp. split.
    + apply (Qopp_le_compat 0 v) in Hlow. exact Hlow.
    + now apply Qopp_le_compat.
Qed.

(** ** The percentage *)

Lemma div_lower (count : nat) (total k : Z) :
  0 < total -> 0 <= k <= 2 ^ 52 -> k * total <= Z.of_nat count ->
  div (ofZ (Z.of_nat count)) (ofZ total) = PosInf
  \/ exists v, div (ofZ (Z.of_nat count)) (ofZ total) = Fin v /\ (inject_Z k <= v)%Q.
Proof.
  intros Ht Hk Hle. destruct total as [|t|t]; try lia.
  unfold div, ofZ. replace (Qeq_bool (inject_Z (Z.pos t)) 0) with false by reflexivity.
  apply round64_lower; [exact Hk|].
  unfold Qle, Qdiv, Qinv, Qmult, inject_Z. cbn. lia.
Qed.

Lemma mul_100_lower (x : number) (k : Z) :
  0 <= k <= 1 ->
  (x = PosInf \/ exists v, x = Fin v /\ (inject_Z k <= v)%Q) ->
  mul x (ofZ 100) = PosInf
  \/ exists v, mul x (ofZ 100) = Fin v /\ (inject_Z (100 * k) <= v)%Q.
Proof.
  intros Hk [->|(v & -> & Hv)]; [now left|].
  unfold mul, ofZ. apply round64_lower; [lia|].
  rewrite inject_Z_mult, Qmult_comm.
  apply Qmult_le_compat_r; [exact Hv|]. now compute.
Qed.

Lemma min_round_lower (x : number) (k : Z) :
  0 <= k <= 100 ->
  (x = PosInf \/ exists v, x = Fin v /\ (inject_Z k <= v)%Q) ->
  exists p, mathMin (ofZ 100) (mathRound x) = ofZ p /\ k <= p <= 100.
Proof.
  intros Hk [->|(v & -> & Hv)].
  - exists 100. split; [reflexivity|lia].
  - unfold mathRound, mathMin, ofZ.
    assert (k <= Qfloor (v + (1 # 2))) as Hfloor.
    { rewrite <- (Qfloor_Z k). apply Qfloor_resp_le.
      rewrite <- (Qplus_0_r (inject_Z k)).
      apply Qplus_le_compat; [exact Hv|]. now compute. }
    set (r := Qfloor (v + (1 # 2))) in *.
    destruct (Qle_bool (inject_Z 100) (inject_Z r)) eqn:Hcmp.
    + exists 100. split; [reflexivity|lia].
    + exists r. split; [reflexivity|]. split; [exact Hfloor|].
      destruct (Z.le_gt_cases 100 r) as [Hge|Hlt]; [|lia].
      rewrite Zle_Qle in Hge. apply Qle_bool_iff in Hge. congruence.
Qed.

Lemma percentOf_lower (total : Z) (count : nat) (k : Z) :
  0 < total -> 0 <= k <= 1 -> k * total <= Z.of_nat count ->
  exists p, percentOf total count = ofZ p /\ 100 * k <= p <= 100.
Proof.
  intros Ht Hk Hle. unfold percentOf.
  apply min_round_lower; [lia|]. apply mul_100_lower; [exact Hk|].
  apply div_lower; [exact Ht| |exact Hle].
  split; [lia|]. transitivity 1; [lia|]. now compute.
Qed.

Lemma percentOf_reached (total : Z) (count : nat) :
  0 < total -> total <= Z.of_nat count -> percentOf total count = ofZ 100.
Proof.
  intros Ht Hle.
  destruct (percentOf_lower total count 1) as (p & Hp & Hrange); [lia..|].
  rewrite Hp. f_equal. lia.
Qed.

(** The rounded percentage of the specification in integer arithmetic. *)
Lemma roundHalfUp_ratio (total : positive) (count : nat) :
  roundHalfUp (inject_Z 100 * inject_Z (Z.of_nat count) / inject_Z (Z.pos total))
  = (200 * Z.of_nat count + Z.pos total) / (2 * Z.pos total).
Proof.
  unfold roundHalfUp.
  transitivity (Qfloor ((200 * Z.of_nat count + Z.pos total) # (2 * total))).
  - apply Qfloor_comp. unfold Qeq, Qdiv, Qinv, Qmult, Qplus, inject_Z. simpl.
    lia.
  - reflexivity.
Qed.

Lemma specPercent_clamped (total : positive) (count : nat) :
  Z.pos total <= Z.of_nat count -> specPercent (Z.pos total) count = 100.
Proof.
  intros Hle. unfold specPercent. rewrite roundHalfUp_ratio.
  apply Z.min_l. apply Z.div_le_lower_bound; lia.
Qed.

(** With the estimate of the source the rounding of the quotient never
    moves the result: below 50 by evaluation of the 50 cases, and from 50
    on because the percentage is 100. *)
Lemma percentOf_50 (count : nat) :
  percentOf TOTAL_WORKERS_ESTIMATE count
  = ofZ (specPercent TOTAL_WORKERS_ESTIMATE count).
Proof.
  unfold TOTAL_WORKERS_ESTIMATE.
  do 50 (destruct count as [|count]; [vm_compute; reflexivity|]).
  rewrite percentOf_reached, specPercent_clamped by lia. reflexivity.
Qed.

(** C3, as amended. For every count and every configured estimate above
    zero the presented percentage is an integer between 0 and 100, and it
    is 100 as soon as the count reaches the estimate. With the estimate
    of the source, 50, it is [min(100, round(100 * todayCount /
    totalEstimate))] for every count. *)
Theorem C3_percent_in_double_precision (total : Z) (count : nat) :
  0 < total ->
  (exists p, percentOf total count = ofZ p /\ 0 <= p <= 100)
  /\ (total <= Z.of_nat count -> percentOf total count = ofZ 100)
  /\ (total = TOTAL_WORKERS_ESTIMATE ->
      percentOf total count = ofZ (specPercent total count)).
Proof.
  intros Ht. split; [|split].
  - destruct (percentOf_lower total count 0) as (p & Hp & Hrange); [lia..|].
    exists p. split; [exact Hp|lia].
  - now apply percentOf_reached.
  - intros ->. apply percentOf_50.
Qed.

Lemma percentOf_negative_estimate (total : Z) (count : nat) :
  total < 0 -> Z.of_nat count < 2 ^ 53 ->
  exists p, percentOf total count = ofZ p /\ p <= 0.
Proof.
  intros Ht Hc. destruct total as [|t|t]; try lia.
  unfold percentOf, div, mul, ofZ.
  replace (Qeq_bool (inject_Z (Z.neg t)) 0) with false by reflexivity.
  destruct (round64_nonpositive (inject_Z (Z.of_nat count) / inject_Z (Z.neg t)) 53)
    as (w & -> & Hw0 & Hw); [lia| | |].
  { unfold Qle, Qdiv, Qinv, Qmult, inject_Z. cbn. lia. }
  { unfold Qle, Qdiv, Qinv, Qmult, inject_Z. cbn. nia. }
  destruct (round64_nonpositive (w * inject_Z 100) 60) as (w2 & -> & Hw20 & _);
    [lia| | |].
  { rewrite <- (Qmult_0_l (inject_Z 100)).
    apply Qmult_le_compat_r; [exact Hw0|now compute]. }
  { apply Qle_trans with (inject_Z (- 2 ^ 53) * inject_Z 100)%Q; [now compute|].
    apply Qmult_le_compat_r; [exact Hw|now compute]. }
  unfold mathRound, mathMin, ofZ.
  assert (Qfloor (w2 + (1 # 2)) <= 0) as Hfloor.
  { change 0 with (Qfloor (1 # 2)). apply Qfloor_resp_le.
    rewrite <- (Qplus_0_l (1 # 2)) at 2.
    apply Qplus_le_compat; [exact Hw20|apply Qle_refl]. }
  exists (Qfloor (w2 + (1 # 2))). split; [|exact Hfloor].
  destruct (Qle_bool (inject_Z 100) (inject_Z (Qfloor (w2 + (1 # 2))))) eqn:Hcmp;
    [|reflexivity].
  apply Qle_bool_iff in Hcmp. rewrite <- Zle_Qle in Hcmp. lia.
Qed.

(** C4, as amended. The code has no configuration check and computes a
    percentage whatever the estimate. With the estimate of the source,
    50, the value is an integer between 0 and 100. With an estimate of 0
    it is [NaN] for a count of 0 and 100 for any other count, and with a
    negative estimate it is an integer that is not positive, for every
    count that a set can have (below 2^53). *)
Theorem C4_no_configuration_check (count : nat) :
  (exists p, hygienePercent (updateDashboardStats count (Some "None") "No activity yet")
             = ofZ p /\ 0 <= p <= 100)
  /\ percentOf 0 0 = NaN
  /\ percentOf 0 (S count) = ofZ 100
  /\ (forall total, total < 0 -> Z.of_nat count < 2 ^ 53 ->
      exists p, percentOf total count = ofZ p /\ p <= 0).
Proof.
  split.
  { destruct (percentOf_lower TOTAL_WORKERS_ESTIMATE count 0) as (p & Hp & Hrange);
      [unfold TOTAL_WORKERS_ESTIMATE; lia..|].
    exists p. split; [exact Hp|lia]. }
  split; [reflexivity|]. split; [reflexivity|].
  intros total. apply percentOf_negative_estimate.
Qed.

(** ** The pipeline on concrete documents *)

(** C5: the reference today string is the UTC date. Half an hour before
    local midnight in a zone five hours behind UTC, it is already the
    date of the next day, and an Event of the local day is not counted. *)
Theorem C5_today_is_the_utc_date :
  todayString lateEvening = "2024-03-16"
  /\ localDateString (Engine.getTimezoneOffset 300) lateEvening = inr "2024-03-15"
  /\ processCSV (Engine.dateParse 300) (Engine.getTimezoneOffset 300) lateEvening true
       lateEveningDocument
     = Updated (Dashboard 0 (ofZ 0) ComplianceLow (Some "Alice") "2024-03-15 23:00:00")
         (Some []).
Proof. repeat split; vm_compute; reflexivity. Qed.

(** C6: a row with two fields under a three-column header is not
    discarded: the call throws and the rows after it are not processed,
    whatever the engine, the clock and the page. *)
Theorem C6_short_row_throws dateParse getTimezoneOffset now tableBody :
  processCSV dateParse getTimezoneOffset now tableBody shortRowDocument
  = Thrown TypeError.
Proof. reflexivity. Qed.

(** A row that reaches the timestamp column but not the name column is
    kept, with an undefined name. *)
Example nameless_row_is_kept :
  processCSV (Engine.dateParse 0) (Engine.getTimezoneOffset 0) noon_2024_03_15 true
    namelessRowDocument
  = Updated (Dashboard 1 (ofZ 2) ComplianceLow None "2024-03-15 08:00:00")
      (Some [Entry None "2024-03-15 08:00:00" "2024-03-15" 1710489600000]).
Proof. vm_compute. reflexivity. Qed.

(** ** Where the code departs from the specification *)

(** C2: an Event before the epoch is never the last access. The only
    Event of the document is one hour before the epoch; it is the Event
    of maximal time over all parsed Events, yet the running maximum,
    which starts at 0, keeps the sentinels. *)
Theorem C2_event_before_epoch_is_missed :
  exists stats rows,
    processCSV (Engine.dateParse 0) (Engine.getTimezoneOffset 0) noon_2024_03_15 true
      beforeEpochDocument = Updated stats rows
    /\ specEvents (Engine.dateParse 0) beforeEpochDocument
       = [Entry (Some "Alice") "1969-12-31 23:00:00" "1969-12-31" (-3600000)]
    /\ latestEvent (specEvents (Engine.dateParse 0) beforeEpochDocument)
       = Some (Entry (Some "Alice") "1969-12-31 23:00:00" "1969-12-31" (-3600000))
    /\ lastWorker stats = Some "None"
    /\ lastTime stats = "No activity yet".
Proof.
  eexists _, _. split; [vm_compute; reflexivity|].
  repeat split; vm_compute; reflexivity.
Qed.

(** C3 as stated fails: with an estimate of 40 and a count of 23 the
    quotient 23 / 40 rounds to a double just below 0.575, the product is
    just below 57.5 and the percentage is 57, where the formula gives
    [round(57.5) = 58]. *)
Lemma C3_counterexample :
  percentOf 40 23 = ofZ 57
  /\ specPercent 40 23 = 58
  /\ percentOf 40 23 <> ofZ (specPercent 40 23).
Proof.
  split; [vm_compute; reflexivity|]. split; [vm_compute; reflexivity|].
  vm_compute. discriminate.
Qed.

(** C4 as stated fails: with an estimate of 0 and a count of 0 the
    percentage is computed, and it is [NaN]. *)
Lemma C4_counterexample : percentOf 0 0 = NaN.
Proof. reflexivity. Qed.

(** C7 as stated fails: a document of the single line [X,Y] has neither
    column, and the call returns without reporting anything. *)
Lemma C7_counterexample :
  resolveColumn "name" unknownHeaderOnly = -1
  /\ resolveColumn "timestamp" unknownHeaderOnly = -1
  /\ processCSV (Engine.dateParse 0) (Engine.getTimezoneOffset 0) noon_2024_03_15 true
       unknownHeaderOnly = ReturnedEarly
  /\ processCSV (Engine.dateParse 0) (Engine.getTimezoneOffset 0) noon_2024_03_15 true
       unknownHeaderOnly <> FormattingError.
Proof. repeat split; try reflexivity. vm_compute. discriminate. Qed.

(** C8 as stated fails: on a header line alone the call returns early and
    no output is produced. *)
Lemma C8_counterexample :
  processCSV (Engine.dateParse 0) (Engine.getTimezoneOffset 0) noon_2024_03_15 true
    headerOnly = ReturnedEarly
  /\ forall stats rows,
       processCSV (Engine.dateParse 0) (Engine.getTimezoneOffset 0) noon_2024_03_15 true
         headerOnly <> Updated stats rows.
Proof. split; [reflexivity|]. intros stats rows. vm_compute. discriminate. Qed.

(** ** The theorems at concrete inputs *)

Lemma C3_witness :
  0 < TOTAL_WORKERS_ESTIMATE
  /\ (exists p, percentOf TOTAL_WORKERS_ESTIMATE 60 = ofZ p /\ 0 <= p <= 100)
  /\ percentOf TOTAL_WORKERS_ESTIMATE 60 = ofZ 100
  /\ percentOf TOTAL_WORKERS_ESTIMATE 60 = ofZ (specPercent TOTAL_WORKERS_ESTIMATE 60).
Proof.
  assert (0 < TOTAL_WORKERS_ESTIMATE) as Hpos by reflexivity.
  destruct (C3_percent_in_double_precision TOTAL_WORKERS_ESTIMATE 60 Hpos)
    as (Hrange & Hreached & Hsource).
  split; [exact Hpos|]. split; [exact Hrange|].
  split; [apply Hreached; vm_compute; discriminate|apply Hsource; reflexivity].
Defined.

Lemma C4_witness :
  -50 < 0 /\ Z.of_nat 10 < 2 ^ 53
  /\ exists p, percentOf (-50) 10 = ofZ p /\ p <= 0.
Proof.
  split; [reflexivity|]. split; [reflexivity|].
  apply (proj2 (proj2 (proj2 (C4_no_configuration_check 10)))); reflexivity.
Defined.

Lemma C7_witness :
  (2 <= length (documentLines unknownHeaderDocument))%nat
  /\ (resolveColumn "name" unknownHeaderDocument = -1
      \/ resolveColumn "timestamp" unknownHeaderDocument = -1)
  /\ processCSV (Engine.dateParse 0) (Engine.getTimezoneOffset 0) noon_2024_03_15 true
       unknownHeaderDocument = FormattingError.
Proof.
  split; [vm_compute; lia|]. split; [left; reflexivity|].
  apply (C7_missing_column_reported (Engine.dateParse 0) (Engine.getTimezoneOffset 0)
           noon_2024_03_15 true unknownHeaderDocument).
  - vm_compute; lia.
  - left; reflexivity.
Defined.

Lemma C9_witness :
  processCSV (Engine.dateParse 0) (Engine.getTimezoneOffset 0) noon_2024_03_15 true
    scenario1 = Updated scenario1Stats (Some scenario1Rows)
  /\ StronglySorted newestFirst scenario1Rows
  /\ scenario1Rows
     ≡ₚ filter (onDay (todayString noon_2024_03_15))
          (documentEvents (Engine.dateParse 0) scenario1)
  /\ forall t, filter (fun e => isoTime e = t) scenario1Rows
               = filter (fun e => isoTime e = t)
                   (filter (onDay (todayString noon_2024_03_15))
                      (documentEvents (Engine.dateParse 0) scenario1)).
Proof.
  split; [vm_compute; reflexivity|].
  apply (C9_rows_sorted_descending (Engine.dateParse 0) (Engine.getTimezoneOffset 0)
           noon_2024_03_15 true scenario1 scenario1Stats scenario1Rows).
  vm_compute; reflexivity.
Defined.


(** * Further properties of the code *)

(** ** Fields of a line *)

Lemma split_length c s : length (JS.split c s) = S (countChar c s).
Proof.
  induction s as [|x s IH]; simpl; [reflexivity|].
  destruct (Ascii.eqb x c); simpl; [now rewrite IH|].
  pose proof (split_not_nil c s) as Hne.
  destruct (JS.split c s) as [|h t]; [contradiction|]. exact IH.
Qed.

Lemma split_app c a b :
  JS.split c (a +:+ String c b) = JS.split c a ++ JS.split c b.
Proof.
  induction a as [|x a IH]; simpl.
  - now rewrite Ascii.eqb_refl.
  - destruct (Ascii.eqb x c); [now rewrite IH|].
    rewrite IH. pose proof (split_not_nil c a) as Hne.
    now destruct (JS.split c a) as [|h t].
Qed.

Lemma split_pieces c s : Forall (fun f => countChar c f = 0%nat) (JS.split c s).
Proof.
  induction s as [|x s IH]; simpl; [now repeat constructor|].
  destruct (Ascii.eqb x c) eqn:Hx; [now constructor|].
  pose proof (split_not_nil c s) as Hne.
  destruct (JS.split c s) as [|h t]; [contradiction|].
  inversion IH as [|? ? Hh Ht]; subst. constructor; [|exact Ht].
  simpl. now rewrite Hx.
Qed.

Lemma trimStart_head s :
  JS.trimStart s = EmptyString
  \/ exists c t, JS.trimStart s = String c t /\ JS.isWhiteSpace c = false.
Proof.
  induction s as [|c s IH]; simpl; [now left|].
  destruct (JS.isWhiteSpace c) eqn:Hc; [exact IH|].
  right. now exists c, s.
Qed.

Lemma trimEnd_head c s :
  JS.isWhiteSpace c = false -> exists t, JS.trimEnd (String c s) = String c t.
Proof.
  intros Hc. simpl. destruct (JS.trimEnd s) as [|x t].
  - rewrite Hc. now exists EmptyString.
  - now exists (String x t).
Qed.

Lemma trimEnd_idempotent s : JS.trimEnd (JS.trimEnd s) = JS.trimEnd s.
Proof.
  induction s as [|c s IH]; simpl; [reflexivity|].
  destruct (JS.trimEnd s) as [|x t] eqn:Ht.
  - destruct (JS.isWhiteSpace c) eqn:Hc; simpl; [reflexivity|now rewrite Hc].
  - change (JS.trimEnd (String c (String x t))) with
      (match JS.trimEnd (String x t) with
       | EmptyString => if JS.isWhiteSpace c then EmptyString else String c EmptyString
       | u => String c u
       end).
    now rewrite IH.
Qed.

Lemma trim_idempotent s : JS.trim (JS.trim s) = JS.trim s.
Proof.
  unfold JS.trim.
  destruct (trimStart_head s) as [->|(c & t & -> & Hc)]; [reflexivity|].
  destruct (trimEnd_head c t Hc) as (v & Hv).
  rewrite Hv. cbn [JS.trimStart]. rewrite Hc, <- Hv.
  apply trimEnd_idempotent.
Qed.

Lemma countChar_trimStart c s : (countChar c (JS.trimStart s) <= countChar c s)%nat.
Proof.
  induction s as [|x s IH]; simpl; [lia|].
  destruct (JS.isWhiteSpace x); simpl; lia.
Qed.

Lemma countChar_trimEnd c s : (countChar c (JS.trimEnd s) <= countChar c s)%nat.
Proof.
  induction s as [|x s IH]; simpl; [lia|].
  destruct (JS.trimEnd s) as [|y t]; [destruct (JS.isWhiteSpace x)|]; simpl in *; lia.
Qed.

(** X1. A line is cut at every comma, quoted or not: the number of
    fields is the number of commas plus one, so that no line has zero
    fields. *)
Theorem parseCSVLine_field_count text :
  length (parseCSVLine text) = S (countChar "," text).
Proof. unfold parseCSVLine. now rewrite length_map, split_length. Qed.

(** X2. Every field of a line is trimmed and free of commas. *)
Theorem parseCSVLine_fields_clean text field :
  field ∈ parseCSVLine text ->
  JS.trim field = field /\ countChar "," field = 0%nat.
Proof.
  unfold parseCSVLine. intros (piece & -> & Hin)%list_elem_of_fmap.
  split; [apply trim_idempotent|].
  pose proof (split_pieces "," text) as Hall.
  rewrite Forall_forall in Hall. apply Hall in Hin.
  pose proof (countChar_trimEnd "," (JS.trimStart piece)).
  pose proof (countChar_trimStart "," piece).
  unfold JS.trim. lia.
Qed.

(** X3. The fields of two texts joined by a comma are the fields of the
    first followed by the fields of the second. *)
Theorem parseCSVLine_comma left right :
  parseCSVLine (left +:+ String "," right) = parseCSVLine left ++ parseCSVLine right.
Proof. unfold parseCSVLine. now rewrite split_app, map_app. Qed.

(** ** White space around the document *)

Lemma trimStart_allWhiteSpace w : allWhiteSpace w = true -> JS.trimStart w = EmptyString.
Proof.
  induction w as [|c w IH]; simpl; [reflexivity|].
  intros [Hc Hw]%andb_true_iff. rewrite Hc. now apply IH.
Qed.

Lemma trimEnd_allWhiteSpace w : allWhiteSpace w = true -> JS.trimEnd w = EmptyString.
Proof.
  induction w as [|c w IH]; simpl; [reflexivity|].
  intros [Hc Hw]%andb_true_iff. now rewrite (IH Hw), Hc.
Qed.

Lemma trimStart_app_l w s :
  allWhiteSpace w = true -> JS.trimStart (w +:+ s) = JS.trimStart s.
Proof.
  induction w as [|c w IH]; simpl; [reflexivity|].
  intros [Hc Hw]%andb_true_iff. rewrite Hc. now apply IH.
Qed.

Lemma trimEnd_app_r s w :
  allWhiteSpace w = true -> JS.trimEnd (s +:+ w) = JS.trimEnd s.
Proof.
  intros Hw. induction s as [|c s IH]; simpl.
  - now apply trimEnd_allWhiteSpace.
  - now rewrite IH.
Qed.

Lemma trim_app_r s w : allWhiteSpace w = true -> JS.trim (s +:+ w) = JS.trim s.
Proof.
  intros Hw. unfold JS.trim.
  induction s as [|c s IH].
  - change (EmptyString +:+ w) with w.
    now rewrite (trimStart_allWhiteSpace w Hw).
  - change (String c s +:+ w) with (String c (s +:+ w)). cbn [JS.trimStart].
    destruct (JS.isWhiteSpace c); [exact IH|].
    now apply (trimEnd_app_r (String c s)).
Qed.

Lemma trim_surrounded before s after :
  allWhiteSpace before = true -> allWhiteSpace after = true ->
  JS.trim (before +:+ s +:+ after) = JS.trim s.
Proof.
  intros Hb Ha. unfold JS.trim. rewrite (trimStart_app_l _ _ Hb).
  now apply trim_app_r.
Qed.

(** X4. White space before and after the document, such as a final line
    break or blank lines, does not change what [processCSV] does. *)
Theorem processCSV_ignores_outer_space
    dateParse getTimezoneOffset now tableBody before csvText after :
  allWhiteSpace before = true -> allWhiteSpace after = true ->
  processCSV dateParse getTimezoneOffset now tableBody (before +:+ csvText +:+ after)
  = processCSV dateParse getTimezoneOffset now tableBody csvText.
Proof.
  intros Hb Ha. unfold processCSV. now rewrite (trim_surrounded _ _ _ Hb Ha).
Qed.

(** ** The header *)

Lemma findIndex_none {A} (p : A -> bool) l :
  JS.findIndex p l = -1 <-> Forall (fun x => p x = false) l.
Proof.
  induction l as [|x l IH]; simpl; [split; [constructor|reflexivity]|].
  destruct (p x) eqn:Hx.
  - split; [discriminate|]. intros H. inversion H; congruence.
  - pose proof (findIndex_range p l) as Hr.
    destruct (Z.eqb_spec (JS.findIndex p l) (-1)) as [Heq|Hne].
    + split; [|reflexivity]. intros _. constructor; [exact Hx|now apply IH].
    + split; [lia|]. intros H. inversion H; subst. apply IH in H3. contradiction.
Qed.

Lemma findIndex_first {A} (p : A -> bool) l i :
  JS.findIndex p l = Z.of_nat i ->
  exists x, l !! i = Some x /\ p x = true
    /\ forall j y, (j < i)%nat -> l !! j = Some y -> p y = false.
Proof.
  revert i. induction l as [|x l IH]; intros i; simpl; [lia|].
  destruct (p x) eqn:Hx.
  - intros Hi. assert (i = 0%nat) as -> by lia.
    exists x. repeat split; auto. intros; lia.
  - destruct (Z.eqb_spec (JS.findIndex p l) (-1)) as [Heq|Hne]; [lia|].
    intros Hi. destruct i as [|i]; [pose proof (findIndex_range p l); lia|].
    destruct (IH i) as (y & Hy & Hpy & Hbefore); [lia|].
    exists y. repeat split; auto.
    intros [|j] z Hj Hz; simpl in Hz; [congruence|].
    apply (Hbefore j); [lia|exact Hz].
Qed.

(** X5. A logical column is the first header label, trimmed and in lower
    case, that contains the key; it is [-1] exactly when no label
    contains it, and otherwise an index into the header. *)
Theorem resolveColumn_first_match key csvText :
  (resolveColumn key csvText = -1
   <-> Forall (fun label => JS.includes key label = false) (headerLabels csvText))
  /\ (resolveColumn key csvText <> -1 ->
      exists i label,
        resolveColumn key csvText = Z.of_nat i
        /\ headerLabels csvText !! i = Some label
        /\ JS.includes key label = true
        /\ forall j other, (j < i)%nat -> headerLabels csvText !! j = Some other ->
             JS.includes key other = false).
Proof.
  unfold resolveColumn. split; [apply findIndex_none|].
  intros Hne.
  pose proof (findIndex_range (JS.includes key) (headerLabels csvText)) as [|Hr];
    [contradiction|].
  exists (Z.to_nat (JS.findIndex (JS.includes key) (headerLabels csvText))).
  destruct (findIndex_first (JS.includes key) (headerLabels csvText)
              (Z.to_nat (JS.findIndex (JS.includes key) (headerLabels csvText))))
    as (label & Hl & Hp & Hbefore); [lia|].
  exists label. repeat split; auto. lia.
Qed.

(** ** Rows that are skipped, rows that throw *)

Section MoreLoopFacts.

Variable dateParse : string -> option Z.
Variable getTimezoneOffset : Z -> Z.
Variables (now : Z) (today : string) (nameIdx timeIdx : Z).

Local Abbreviation step := (rowStep dateParse getTimezoneOffset now today nameIdx timeIdx).
Local Abbreviation loop := (forLoop dateParse getTimezoneOffset now today nameIdx timeIdx).
Local Abbreviation event := (eventOfRow dateParse nameIdx timeIdx).
Local Abbreviation shifted := (fun t => t - getTimezoneOffset t * 60000).

Lemma forLoop_app rows1 rows2 : forall st,
  loop st (rows1 ++ rows2)
  = match loop st rows1 with
    | inl e => inl e
    | inr st' => loop st' rows2
    end.
Proof.
  induction rows1 as [|row rows1 IH]; intros st; simpl; [reflexivity|].
  destruct (step st row); [reflexivity|apply IH].
Qed.

(** Whether a row throws, and what, does not depend on the state. *)
Lemma rowStep_any_state st st' row :
  match step st row, step st' row with
  | inl e, inl e' => e = e'
  | inr _, inr _ => True
  | _, _ => False
  end.
Proof.
  unfold rowStep.
  destruct (String.eqb (JS.trim row) ""); [exact I|].
  destruct (length (parseCSVLine row) <? 2)%nat; [exact I|].
  destruct (JS.at_ (parseCSVLine row) timeIdx) as [ts|]; [|reflexivity].
  destruct (dateParse (JS.replace " " "T" ts)) as [t|]; [|exact I].
  destruct (localDateString getTimezoneOffset t); [reflexivity|].
  destruct (localDateString getTimezoneOffset now); [reflexivity|].
  destruct (String.eqb _ today);
    cbn [rawLastTime]; destruct (t >? rawLastTime st); destruct (t >? rawLastTime st');
    exact I.
Qed.

Lemma rowStep_TypeError st row :
  step st row = inl TypeError
  <-> JS.trim row <> EmptyString
      /\ (2 <= length (parseCSVLine row))%nat
      /\ JS.at_ (parseCSVLine row) timeIdx = None.
Proof.
  unfold rowStep, localDateString.
  destruct (String.eqb_spec (JS.trim row) ""); [split; [discriminate|tauto]|].
  destruct (Nat.ltb_spec (length (parseCSVLine row)) 2);
    [split; [discriminate|intros (_ & ? & _); lia]|].
  destruct (JS.at_ (parseCSVLine row) timeIdx) as [ts|];
    [|split; [auto|reflexivity]].
  split; [|intros (_ & _ & ?); discriminate].
  destruct (dateParse (JS.replace " " "T" ts)) as [t|]; [|discriminate].
  destruct (JSDate.validTime (t - getTimezoneOffset t * 60000)); [|discriminate].
  destruct (JSDate.validTime (now - getTimezoneOffset now * 60000)); [|discriminate].
  destruct (String.eqb _ today); cbn [rawLastTime];
    destruct (t >? rawLastTime st); discriminate.
Qed.

Lemma rowStep_RangeError st row :
  step st row = inl RangeError
  <-> exists e, event row = Some e
        /\ (JSDate.validTime (shifted (isoTime e)) = false
            \/ JSDate.validTime (shifted now) = false).
Proof.
  unfold rowStep, eventOfRow, localDateString.
  destruct (String.eqb (JS.trim row) "");
    [split; [discriminate|intros (? & ? & _); discriminate]|].
  destruct (length (parseCSVLine row) <? 2)%nat;
    [split; [discriminate|intros (? & ? & _); discriminate]|].
  destruct (JS.at_ (parseCSVLine row) timeIdx) as [ts|];
    [|split; [discriminate|intros (? & ? & _); discriminate]].
  destruct (dateParse (JS.replace " " "T" ts)) as [t|];
    [|split; [discriminate|intros (? & ? & _); discriminate]].
  destruct (JSDate.validTime (t - getTimezoneOffset t * 60000)) eqn:Ht.
  - destruct (JSDate.validTime (now - getTimezoneOffset now * 60000)) eqn:Hn.
    + split.
      * destruct (String.eqb _ today); cbn [rawLastTime];
          destruct (t >? rawLastTime st); discriminate.
      * intros (e & [= <-] & [H|H]); cbn in H; congruence.
    + split; [|reflexivity]. intros _. eexists. split; [reflexivity|now right].
  - split; [|reflexivity]. intros _. eexists. split; [reflexivity|left; exact Ht].
Qed.

(** A row that is blank, has fewer than two fields or has a timestamp
    that does not parse leaves the state as it is. *)
Lemma rowStep_skipped st row :
  JS.trim row = EmptyString
  \/ (length (parseCSVLine row) < 2)%nat
  \/ (exists ts, JS.at_ (parseCSVLine row) timeIdx = Some ts
        /\ dateParse (JS.replace " " "T" ts) = None) ->
  step st row = inr st.
Proof.
  unfold rowStep. intros [Hblank|[Hshort|(ts & Hts & Hparse)]].
  - now rewrite Hblank.
  - destruct (String.eqb (JS.trim row) ""); [reflexivity|].
    now destruct (Nat.ltb_spec (length (parseCSVLine row)) 2); [|lia].
  - destruct (String.eqb (JS.trim row) ""); [reflexivity|].
    destruct (length (parseCSVLine row) <? 2)%nat; [reflexivity|].
    now rewrite Hts, Hparse.
Qed.

(** X6. A blank line, a line with fewer than two fields and a line whose
    timestamp does not parse can be added to or removed from the rows,
    anywhere, without any effect on the result of the loop. *)
Theorem skipped_row_has_no_effect st rows1 row rows2 :
  JS.trim row = EmptyString
  \/ (length (parseCSVLine row) < 2)%nat
  \/ (exists ts, JS.at_ (parseCSVLine row) timeIdx = Some ts
        /\ dateParse (JS.replace " " "T" ts) = None) ->
  loop st (rows1 ++ row :: rows2) = loop st (rows1 ++ rows2).
Proof.
  intros Hskip. rewrite !forLoop_app.
  destruct (loop st rows1) as [|st1]; [reflexivity|].
  simpl. now rewrite (rowStep_skipped st1 row Hskip).
Qed.

Lemma forLoop_completes rows : forall st,
  Forall (fun row => exists s, step initialState row = inr s) rows ->
  exists st', loop st rows = inr st'.
Proof.
  induction rows as [|row rows IH]; intros st Hall; simpl; [now exists st|].
  inversion Hall as [|? ? (s & Hs) Hrest]; subst.
  pose proof (rowStep_any_state initialState st row) as Hany. rewrite Hs in Hany.
  destruct (step st row) as [|st1]; [contradiction|]. now apply IH.
Qed.

Lemma forLoop_completed rows : forall st st',
  loop st rows = inr st' ->
  Forall (fun row => exists s, step initialState row = inr s) rows.
Proof.
  induction rows as [|row rows IH]; intros st st'; simpl; [constructor|].
  destruct (step st row) as [|st1] eqn:Hstep; [discriminate|].
  intros Hloop. constructor; [|now apply (IH st1 st')].
  pose proof (rowStep_any_state st initialState row) as Hany. rewrite Hstep in Hany.
  destruct (step initialState row) as [|s]; [contradiction|]. now exists s.
Qed.

(** X7. The order of the rows does not matter for the workers counted
    nor for the Events collected: when the loop completes on some rows,
    it completes on every rearrangement of them, with the same set of
    workers of today and the same Events of today up to their order. *)
Theorem row_order_does_not_matter st rows rows' st1 :
  rows ≡ₚ rows' ->
  forLoop dateParse getTimezoneOffset now today nameIdx timeIdx st rows = inr st1 ->
  exists st2,
    forLoop dateParse getTimezoneOffset now today nameIdx timeIdx st rows' = inr st2
    /\ uniqueWorkersToday st2 = uniqueWorkersToday st1
    /\ data st2 ≡ₚ data st1.
Proof.
  intros Hperm Hloop.
  pose proof (forLoop_completed _ _ _ Hloop) as Hall.
  rewrite Hperm in Hall.
  destruct (forLoop_completes rows' st Hall) as (st2 & Hloop').
  exists st2. split; [exact Hloop'|].
  rewrite (loop_workers _ _ _ _ _ _ _ _ _ Hloop),
          (loop_workers _ _ _ _ _ _ _ _ _ Hloop'),
          (loop_data _ _ _ _ _ _ _ _ _ Hloop),
          (loop_data _ _ _ _ _ _ _ _ _ Hloop').
  split; [f_equal; apply list_to_set_perm_L|]; now rewrite Hperm.
Qed.

(** X8. A row whose time, shifted by the zone offset, leaves the range
    of valid dates aborts the loop: the local date string that the loop
    computes and never uses cannot be formatted, and the exception
    leaves [processCSV]. *)
Theorem out_of_range_row_throws st row ts t :
  JS.trim row <> EmptyString ->
  (2 <= length (parseCSVLine row))%nat ->
  JS.at_ (parseCSVLine row) timeIdx = Some ts ->
  dateParse (JS.replace " " "T" ts) = Some t ->
  JSDate.validTime (shifted t) = false ->
  forall rows, loop st (row :: rows) = inl RangeError.
Proof.
  intros Hrow Hlen Hts Hparse Hshift rows. simpl.
  assert (step st row = inl RangeError) as ->; [|reflexivity].
  apply rowStep_RangeError.
  exists (Entry (JS.at_ (parseCSVLine row) nameIdx) ts (JS.splitFirst " " ts) t).
  split; [|left; exact Hshift].
  unfold eventOfRow.
  destruct (String.eqb_spec (JS.trim row) ""); [contradiction|].
  destruct (Nat.ltb_spec (length (parseCSVLine row)) 2); [lia|].
  now rewrite Hts, Hparse.
Qed.

Lemma forLoop_no_throw rows : forall st,
  0 <= timeIdx < 2 ->
  JSDate.validTime (shifted now) = true ->
  Forall (fun e => JSDate.validTime (shifted (isoTime e)) = true) (omap event rows) ->
  exists st', loop st rows = inr st'.
Proof.
  intros st Hidx Hnow Hall. apply forLoop_completes.
  induction rows as [|row rows IH]; [constructor|].
  simpl in Hall. constructor.
  - destruct (step initialState row) as [[]|s] eqn:Hstep; [| |now exists s].
    + apply rowStep_TypeError in Hstep as (_ & Hlen & Hat). exfalso.
      unfold JS.at_ in Hat. destruct (Z.ltb_spec timeIdx 0); [lia|].
      apply lookup_ge_None_1 in Hat. lia.
    + apply rowStep_RangeError in Hstep as (e & He & [Hbad|Hbad]); [|congruence].
      rewrite He in Hall. inversion Hall; subst. congruence.
  - apply IH. destruct (event row); [now inversion Hall|exact Hall].
Qed.

End MoreLoopFacts.

(** X9. When the timestamp column is one of the first two columns and the
    clock and every parsed Event stay in the range of valid dates once
    shifted by the zone offset, [processCSV] throws nothing, whatever the
    rows are. *)
Theorem processCSV_does_not_throw
    dateParse getTimezoneOffset now tableBody csvText :
  resolveColumn "timestamp" csvText < 2 ->
  JSDate.validTime (now - getTimezoneOffset now * 60000) = true ->
  Forall (fun e => JSDate.validTime (isoTime e - getTimezoneOffset (isoTime e) * 60000)
                   = true)
         (documentEvents dateParse csvText) ->
  forall e, processCSV dateParse getTimezoneOffset now tableBody csvText <> Thrown e.
Proof.
  intros Hidx Hnow Hall e. unfold documentEvents in Hall.
  unfold processCSV. fold (documentLines csvText). fold (headerLabels csvText).
  fold (resolveColumn "name" csvText). fold (resolveColumn "timestamp" csvText).
  destruct (length (documentLines csvText) <? 2)%nat; [discriminate|].
  destruct (Z.eqb_spec (resolveColumn "timestamp" csvText) (-1)) as [|Hne];
    [rewrite orb_true_r; discriminate|].
  destruct (_ || _); [discriminate|].
  destruct (forLoop_no_throw dateParse getTimezoneOffset now (todayString now)
              (resolveColumn "name" csvText) (resolveColumn "timestamp" csvText)
              (drop 1 (documentLines csvText)) initialState) as (st' & ->);
    [|exact Hnow|exact Hall|discriminate].
  pose proof (findIndex_range (JS.includes "timestamp") (headerLabels csvText)).
  unfold resolveColumn in *. lia.
Qed.

(** ** The rows of the table and the cards *)

Lemma remove_dups_length {A} `{EqDecision A} (l : list A) :
  (length (remove_dups l) <= length l)%nat.
Proof.
  induction l as [|x l IH]; simpl; [lia|].
  destruct (decide_rel elem_of x l); simpl; lia.
Qed.

(** Before the first Event of maximal time, no Event has that time. *)
Lemma first_max_is_first_of_its_time l1 e l2 :
  Forall (fun x => isoTime x < isoTime e) l1 ->
  filter (fun x => isoTime x = isoTime e) (l1 ++ e :: l2)
  = e :: filter (fun x => isoTime x = isoTime e) l2.
Proof.
  intros Hl1. rewrite filter_app, filter_cons_True by reflexivity.
  replace (filter (fun x => isoTime x = isoTime e) l1) with (@nil entry);
    [reflexivity|].
  symmetry. induction Hl1 as [|x l Hx _ IH]; [reflexivity|].
  rewrite filter_cons_False by lia. exact IH.
Qed.

Section MoreDocumentFacts.

Variable dateParse : string -> option Z.
Variable getTimezoneOffset : Z -> Z.
Variable now : Z.
Variable tableBody : bool.

Local Abbreviation run := (processCSV dateParse getTimezoneOffset now tableBody).
Local Abbreviation events := (documentEvents dateParse).
Local Abbreviation today := (todayString now).

(** The fields of a parsed Event: the timestamp is a trimmed field of
    its row, the date is its part before the first space. *)
Lemma documentEvents_fields csvText e :
  e ∈ events csvText ->
  date e = datePart e /\ JS.trim (timestamp e) = timestamp e.
Proof.
  unfold documentEvents. intros (row & _ & Hrow)%list_elem_of_omap.
  revert Hrow. unfold eventOfRow.
  destruct (String.eqb (JS.trim row) ""); [discriminate|].
  destruct (length (parseCSVLine row) <? 2)%nat; [discriminate|].
  destruct (JS.at_ (parseCSVLine row) _) as [ts|] eqn:Hts; [|discriminate].
  destruct (dateParse (JS.replace " " "T" ts)) as [t|]; [|discriminate].
  intros [= <-]. split; [apply splitFirst_beforeFirst|]. cbn [timestamp].
  unfold JS.at_ in Hts. destruct (_ <? 0); [discriminate|].
  apply list_elem_of_lookup_2 in Hts. unfold parseCSVLine in Hts.
  apply list_elem_of_fmap in Hts as (piece & -> & _). apply trim_idempotent.
Qed.

Lemma painted_rows csvText stats rows :
  run csvText = Updated stats (Some rows) ->
  rows = sortBy byTimeDesc (filter (onDay today) (events csvText))
  /\ countToday stats
     = size (list_to_set (name <$> filter (onDay today) (events csvText))
               : gset (option string)).
Proof.
  intros (st & Hloop & -> & Hrows)%processCSV_Updated.
  pose proof (loop_data _ _ _ _ _ _ _ _ _ Hloop) as Hdata.
  pose proof (loop_workers _ _ _ _ _ _ _ _ _ Hloop) as Hset.
  cbn [initialState data app uniqueWorkersToday] in Hdata, Hset.
  unfold updateTable in Hrows. destruct (negb tableBody); [discriminate|].
  injection Hrows as ->. rewrite Hdata, Hset, (right_id_L ∅ (∪)). now split.
Qed.

(** X10. Every row painted in the table has the today string as its
    date, which is the part of its timestamp before the first space;
    its timestamp is a trimmed field that parses, once its first space
    is a [T], to the time the rows are sorted by. *)
Theorem painted_rows_are_of_today csvText stats rows e :
  run csvText = Updated stats (Some rows) ->
  e ∈ rows ->
  date e = today
  /\ datePart e = today
  /\ JS.trim (timestamp e) = timestamp e
  /\ dateParse (JS.replace " " "T" (timestamp e)) = Some (isoTime e).
Proof.
  intros [-> _]%painted_rows Hin.
  rewrite sortBy_perm in Hin. apply list_elem_of_filter in Hin as [Hday Hin].
  destruct (documentEvents_fields _ _ Hin) as [Hdate Htrim].
  pose proof (documentEvents_parse _ _ _ Hin) as Hparse.
  unfold onDay in Hday. rewrite Hdate. auto.
Qed.

(** X11. The count of workers never exceeds the number of rows painted,
    and it is zero exactly when the table is empty. *)
Theorem count_bounded_by_rows csvText stats rows :
  processCSV dateParse getTimezoneOffset now tableBody csvText
  = Updated stats (Some rows) ->
  (countToday stats <= length rows)%nat
  /\ (countToday stats = 0%nat <-> rows = []).
Proof.
  intros [-> ->]%painted_rows.
  set (T := filter (onDay today) (events csvText)).
  rewrite size_list_to_set_remove_dups. split.
  - rewrite (Permutation_length (sortBy_perm byTimeDesc T)), <- (length_fmap name T).
    apply remove_dups_length.
  - split.
    + intros Hzero. destruct T as [|x T'] eqn:HT; [reflexivity|]. exfalso.
      assert (name x ∈ remove_dups (name <$> x :: T')) as Hin
        by (apply elem_of_remove_dups; left).
      destruct (remove_dups (name <$> x :: T')); [inversion Hin|discriminate].
    + intros Hnil. pose proof (sortBy_perm byTimeDesc T) as Hperm.
      rewrite Hnil in Hperm. apply Permutation_nil in Hperm. now rewrite Hperm.
Qed.

(** X12. When the most recent Event after the epoch is an Event of
    today, the first row of the table is that Event: the last-access card
    and the top of the table show the same worker and timestamp. *)
Theorem last_access_is_first_row csvText stats rows e :
  run csvText = Updated stats (Some rows) ->
  latestEvent (filter afterEpoch (events csvText)) = Some e ->
  onDay today e ->
  exists rest, rows = e :: rest
    /\ lastWorker stats = name e /\ lastTime stats = timestamp e.
Proof.
  intros Hrun Hlatest Hday.
  pose proof (last_access_is_latest _ _ _ _ _ _ _ Hrun) as Hlast.
  rewrite Hlatest in Hlast. destruct Hlast as [Hname Htime].
  apply painted_rows in Hrun as [Hrows _].
  set (T := filter (onDay today) (events csvText)) in *.
  apply latestEvent_first_max in Hlatest as (a1 & a2 & Ha & Ha1 & Ha2).
  assert (e ∈ filter afterEpoch (events csvText)) as HeA
    by (rewrite Ha; apply elem_of_app; right; left).
  apply list_elem_of_filter in HeA as [Hpos HeIn]. unfold afterEpoch in Hpos.
  assert (e ∈ T) as HeT by (apply list_elem_of_filter; auto).
  destruct rows as [|r rest].
  { exfalso. assert (e ∈ sortBy byTimeDesc T) as H by now rewrite sortBy_perm.
    rewrite <- Hrows in H. inversion H. }
  pose proof (sortBy_sorted T) as Hsorted. rewrite <- Hrows in Hsorted.
  apply StronglySorted_inv in Hsorted as [_ Hrest]. unfold newestFirst in Hrest.
  assert (r ∈ T) as HrT by (rewrite <- (sortBy_perm byTimeDesc T), <- Hrows; left).
  assert (isoTime e <= isoTime r) as Hle.
  { assert (e ∈ r :: rest) as H by (rewrite Hrows, sortBy_perm; exact HeT).
    apply elem_of_cons in H as [->|H]; [lia|].
    rewrite Forall_forall in Hrest. now apply Hrest. }
  apply list_elem_of_filter in HrT as [Hrday HrIn].
  assert (isoTime r <= isoTime e) as Hge.
  { assert (r ∈ a1 ++ e :: a2) as H
      by (rewrite <- Ha; apply list_elem_of_filter; unfold afterEpoch; split; [lia|auto]).
    rewrite Forall_forall in Ha1, Ha2.
    apply elem_of_app in H as [H|H]; [apply Ha1 in H; lia|].
    apply elem_of_cons in H as [->|H]; [lia|now apply Ha2]. }
  assert (isoTime r = isoTime e) as Htau by lia.
  pose proof (sortBy_stable (isoTime e) T) as Hstable. rewrite <- Hrows in Hstable.
  rewrite filter_cons_True in Hstable by exact Htau.
  assert (filter (fun x => isoTime x = isoTime e) T
          = filter (onDay today) (filter (fun x => isoTime x = isoTime e)
                                    (filter afterEpoch (events csvText)))) as HT.
  { unfold T. rewrite !list_filter_filter. apply list_filter_iff.
    unfold afterEpoch. intros x. split; [intros (-> & ?)|]; tauto. }
  rewrite HT, Ha, (first_max_is_first_of_its_time _ _ _ Ha1),
    filter_cons_True in Hstable by exact Hday.
  injection Hstable as -> _. now exists rest.
Qed.

End MoreDocumentFacts.

(** ** The compliance class *)

Lemma geb_ofZ a b : geb (ofZ a) (ofZ b) = (b <=? a).
Proof.
  unfold geb, ofZ. destruct (Z.leb_spec b a) as [Hle|Hgt].
  - apply Qle_bool_iff. now rewrite <- Zle_Qle.
  - destruct (Qle_bool (inject_Z b) (inject_Z a)) eqn:Hq; [|reflexivity].
    apply Qle_bool_iff in Hq. rewrite <- Zle_Qle in Hq. lia.
Qed.

Lemma specPercent_50 (count : nat) :
  specPercent TOTAL_WORKERS_ESTIMATE count = Z.min 100 (2 * Z.of_nat count).
Proof.
  unfold specPercent, TOTAL_WORKERS_ESTIMATE. rewrite (roundHalfUp_ratio 50).
  f_equal. symmetry. apply (Z.div_unique _ _ _ 50); lia.
Qed.

(** X13. With the estimate of the source, the percentage shown is in the
    high class from 40 workers on, in the medium class from 25 to 39 and
    in the low class below 25. *)
Theorem compliance_class_by_count count lastWorker lastTime :
  hygieneClass (updateDashboardStats count lastWorker lastTime)
  = if (40 <=? count)%nat then ComplianceHigh
    else if (25 <=? count)%nat then ComplianceMed
    else ComplianceLow.
Proof.
  cbn [updateDashboardStats hygieneClass]. unfold classify.
  rewrite percentOf_50, specPercent_50, !geb_ofZ.
  destruct (Nat.leb_spec 40 count); destruct (Nat.leb_spec 25 count);
    destruct (Z.leb_spec 80 (Z.min 100 (2 * Z.of_nat count)));
    destruct (Z.leb_spec 50 (Z.min 100 (2 * Z.of_nat count)));
    try reflexivity; lia.
Qed.

(** ** The time cell *)

Lemma split_absent c s :
  JS.includes (String c EmptyString) s = false -> JS.split c s = [s].
Proof.
  induction s as [|x s IH]; [reflexivity|].
  rewrite includes_one_cons. intros [Hx Hs]%orb_false_iff.
  simpl. now rewrite Hx, (IH Hs).
Qed.

Lemma beforeFirst_app c d t :
  JS.includes (String c EmptyString) d = false ->
  beforeFirst c (d +:+ String c t) = d.
Proof.
  induction d as [|x d IH]; simpl.
  - now rewrite Ascii.eqb_refl.
  - intros Hd. change (JS.includes (String c EmptyString) (String x d) = false) in Hd.
    rewrite includes_one_cons in Hd. apply orb_false_iff in Hd as [Hx Hd].
    now rewrite Hx, (IH Hd).
Qed.

(** X14. For a timestamp made of a date and a time with one space in
    between, the date cell and the time cell are the two parts, and
    joining them with a space gives the timestamp back; a timestamp
    without a space is shown whole in the time cell. *)
Theorem date_and_time_cells ts :
  (JS.includes " " ts = false -> timeOnly ts = ts)
  /\ (forall d t,
        ts = d +:+ String " " t ->
        JS.includes " " d = false -> JS.includes " " t = false ->
        t <> EmptyString ->
        beforeFirst " " ts = d /\ timeOnly ts = t
        /\ beforeFirst " " ts +:+ String " " (timeOnly ts) = ts).
Proof.
  split.
  - intros Hts. unfold timeOnly. now rewrite (split_absent _ _ Hts).
  - intros d t -> Hd Ht Hne.
    assert (timeOnly (d +:+ String " " t) = t) as Htime.
    { unfold timeOnly. rewrite split_app, (split_absent _ _ Hd), (split_absent _ _ Ht).
      simpl. destruct (String.eqb_spec t ""); [contradiction|reflexivity]. }
    rewrite Htime, (beforeFirst_app _ _ _ Hd). auto.
Qed.

(** ** What the user sees after a fetch *)

Section FetchFacts.

Variable dateParse : string -> option Z.
Variable getTimezoneOffset : Z -> Z.
Variable now : Z.

Local Abbreviation fetch := (fetchData dateParse getTimezoneOffset now).

(** X15. When a fetched document is processed to the end and has no
    Event of today, [updateTable] puts the no-records message into the
    empty-state element and shows it, and [fetchData] hides the element
    right after: the page ends with an empty table and the message
    hidden. *)
Theorem no_records_message_ends_hidden p el text stats rows :
  hasTableBody p = true ->
  emptyState p = Some el ->
  processCSV dateParse getTimezoneOffset now true text = Updated stats rows ->
  filter (onDay (todayString now)) (documentEvents dateParse text) = [] ->
  fetch (Some text) p
  = Page (Some stats) (Some []) (Some (Banner "none" noRecordsMessage)).
Proof.
  intros Hbody Hel Hrun Hnone. unfold fetchData. rewrite Hbody, Hrun.
  destruct rows as [rows|].
  - apply painted_rows in Hrun as [-> _]. rewrite Hnone.
    cbn. now rewrite Hel.
  - apply processCSV_Updated in Hrun as (st & _ & _ & Hrows).
    unfold updateTable in Hrows. discriminate Hrows.
Qed.

(** X16. A fetched document with a resolved header and, anywhere in its
    body, a row that has two fields or more but none at the timestamp
    column is handled like a failed request: the statistics and the table
    stay as they were and the empty-state element shows the
    waiting-for-connection message. *)
Theorem short_row_is_shown_as_waiting p text row :
  (2 <= length (documentLines text))%nat ->
  resolveColumn "name" text <> -1 ->
  resolveColumn "timestamp" text <> -1 ->
  row ∈ drop 1 (documentLines text) ->
  JS.trim row <> EmptyString ->
  (2 <= length (parseCSVLine row))%nat ->
  Z.of_nat (length (parseCSVLine row)) <= resolveColumn "timestamp" text ->
  fetch (Some text) p
  = Page (shownStats p) (tableRows p)
      (setBanner "block" (Some waitingMessage) (emptyState p)).
Proof.
  intros Hlen Hname Htime Hin Hrow Hparts Hidx. unfold fetchData.
  assert (exists e, processCSV dateParse getTimezoneOffset now (hasTableBody p) text
                    = Thrown e) as (e & ->); [|reflexivity].
  unfold processCSV. fold (documentLines text). fold (headerLabels text).
  fold (resolveColumn "name" text). fold (resolveColumn "timestamp" text).
  destruct (Nat.ltb_spec (length (documentLines text)) 2); [lia|].
  destruct (Z.eqb_spec (resolveColumn "name" text) (-1)); [contradiction|].
  destruct (Z.eqb_spec (resolveColumn "timestamp" text) (-1)); [contradiction|].
  cbn [orb].
  destruct (forLoop _ _ _ _ _ _ _ _) as [e|st] eqn:Hloop; [now exists e|].
  exfalso. apply forLoop_completed in Hloop.
  rewrite Forall_forall in Hloop. destruct (Hloop row Hin) as (s & Hs).
  rewrite (rowStep_short_row _ _ _ _ _ _ _ _ Hrow Hparts Hidx) in Hs. discriminate.
Qed.

End FetchFacts.

(** * The parsed Events of the specification and the entries of the code *)

Section SpecAndCode.

Variable dateParse : string -> option Z.
Variable getTimezoneOffset : Z -> Z.
Variable now : Z.
Variable tableBody : bool.

Local Abbreviation run := (processCSV dateParse getTimezoneOffset now tableBody).

(** On a row that is blank, or that has two fields or more and a field at
    both columns, the loop builds the Event of the specification. *)
Lemma eventOfRow_complete_row nameIdx timeIdx row :
  (JS.trim row <> EmptyString ->
   (2 <= length (parseCSVLine row))%nat
   /\ is_Some (JS.at_ (parseCSVLine row) nameIdx)
   /\ is_Some (JS.at_ (parseCSVLine row) timeIdx)) ->
  eventOfRow dateParse nameIdx timeIdx row = specEventOfRow dateParse nameIdx timeIdx row.
Proof.
  unfold eventOfRow, specEventOfRow. intros Hrow.
  destruct (String.eqb_spec (JS.trim row) ""); [reflexivity|].
  destruct Hrow as (Hlen & [w Hw] & [ts Hts]); [assumption|].
  destruct (Nat.ltb_spec (length (parseCSVLine row)) 2); [lia|].
  rewrite Hw, Hts, splitFirst_beforeFirst. reflexivity.
Qed.

(** On a document whose rows all reach both columns, the count of the
    code is the count of the specification. *)
Lemma count_matches_specification csvText stats rows :
  Forall (fun row =>
            JS.trim row <> EmptyString ->
            (2 <= length (parseCSVLine row))%nat
            /\ is_Some (JS.at_ (parseCSVLine row) (resolveColumn "name" csvText))
            /\ is_Some (JS.at_ (parseCSVLine row) (resolveColumn "timestamp" csvText)))
         (drop 1 (documentLines csvText)) ->
  run csvText = Updated stats rows ->
  countToday stats = specTodayCount dateParse (todayString now) csvText.
Proof.
  intros Hrows Hrun. rewrite (count_is_distinct_names _ _ _ _ _ _ _ Hrun).
  unfold specTodayCount, specEvents, documentEvents. do 4 f_equal.
  induction Hrows as [|row rest Hrow _ IH]; [reflexivity|].
  cbn [omap list_omap]. now rewrite (eventOfRow_complete_row _ _ _ Hrow), IH.
Qed.

Lemma forLoop_all_skipped today nameIdx timeIdx rows : forall st,
  Forall (skippedRow dateParse timeIdx) rows ->
  forLoop dateParse getTimezoneOffset now today nameIdx timeIdx st rows = inr st.
Proof.
  intros st Hall. induction Hall as [|row rest Hrow _ IH]; [reflexivity|].
  simpl. now rewrite (rowStep_skipped _ _ _ _ _ _ _ _ Hrow).
Qed.

(** C8, as amended. A document of a header line alone makes the call
    return before anything is computed or shown. The output
    [todayCount = 0], [lastWorker = "None"] and
    [lastTimestampRaw = "No activity yet"] is produced by every document
    of two lines or more whose header has both columns and whose lines
    after the header are all skipped: blank, with fewer than two fields,
    or with a timestamp that does not parse. *)
Theorem C8_header_only_returns_early csvText :
  ((length (documentLines csvText) < 2)%nat -> run csvText = ReturnedEarly)
  /\ ((2 <= length (documentLines csvText))%nat ->
      resolveColumn "name" csvText <> -1 ->
      resolveColumn "timestamp" csvText <> -1 ->
      Forall (skippedRow dateParse (resolveColumn "timestamp" csvText))
             (drop 1 (documentLines csvText)) ->
      run csvText
      = Updated (Dashboard 0 (ofZ 0) ComplianceLow (Some "None") "No activity yet")
          (updateTable tableBody [])).
Proof.
  unfold processCSV. fold (documentLines csvText). fold (headerLabels csvText).
  fold (resolveColumn "name" csvText). fold (resolveColumn "timestamp" csvText).
  split.
  - intros Hlen.
    now destruct (Nat.ltb_spec (length (documentLines csvText)) 2); [|lia].
  - intros Hlen Hname Htime Hskipped.
    destruct (Nat.ltb_spec (length (documentLines csvText)) 2); [lia|].
    destruct (Z.eqb_spec (resolveColumn "name" csvText) (-1)); [contradiction|].
    destruct (Z.eqb_spec (resolveColumn "timestamp" csvText) (-1)); [contradiction|].
    cbn [orb]. rewrite (forLoop_all_skipped _ _ _ _ _ Hskipped).
    reflexivity.
Qed.

End SpecAndCode.

(** C1: a row that reaches the timestamp column but not the name column
    is counted. The specification discards the row, so that the document
    has no parsed Event and a count of 0; the code keeps it with an
    undefined name and reports one worker. *)
Theorem C1_nameless_row_is_counted :
  specEvents (Engine.dateParse 0) namelessRowDocument = []
  /\ specTodayCount (Engine.dateParse 0) (todayString noon_2024_03_15)
       namelessRowDocument = 0%nat
  /\ exists stats rows,
       processCSV (Engine.dateParse 0) (Engine.getTimezoneOffset 0) noon_2024_03_15 true
         namelessRowDocument = Updated stats rows
       /\ countToday stats = 1%nat.
Proof.
  split; [vm_compute; reflexivity|]. split; [vm_compute; reflexivity|].
  eexists _, _. split; vm_compute; reflexivity.
Qed.

Lemma C8_witness :
  ((length (documentLines headerOnly) < 2)%nat
   /\ processCSV (Engine.dateParse 0) (Engine.getTimezoneOffset 0) noon_2024_03_15 true
        headerOnly = ReturnedEarly)
  /\ ((2 <= length (documentLines noEventDocument))%nat
      /\ resolveColumn "name" noEventDocument <> -1
      /\ resolveColumn "timestamp" noEventDocument <> -1
      /\ Forall (skippedRow (Engine.dateParse 0) (resolveColumn "timestamp" noEventDocument))
                (drop 1 (documentLines noEventDocument))
      /\ processCSV (Engine.dateParse 0) (Engine.getTimezoneOffset 0) noon_2024_03_15 true
           noEventDocument
         = Updated (Dashboard 0 (ofZ 0) ComplianceLow (Some "None") "No activity yet")
             (updateTable true [])).
Proof.
  assert ((length (documentLines headerOnly) < 2)%nat) as Hshort by (vm_compute; lia).
  assert ((2 <= length (documentLines noEventDocument))%nat) as Hlong
    by (vm_compute; lia).
  assert (resolveColumn "name" noEventDocument <> -1) as Hname
    by (vm_compute; discriminate).
  assert (resolveColumn "timestamp" noEventDocument <> -1) as Htime
    by (vm_compute; discriminate).
  assert (Forall (skippedRow (Engine.dateParse 0)
                    (resolveColumn "timestamp" noEventDocument))
                 (drop 1 (documentLines noEventDocument))) as Hskipped.
  { change (Forall (skippedRow (Engine.dateParse 0) 1) ["Carol,not-a-date"]).
    constructor; [|constructor].
    right. right. exists "not-a-date". split; reflexivity. }
  split.
  - split; [exact Hshort|].
    exact (proj1 (C8_header_only_returns_early (Engine.dateParse 0)
                    (Engine.getTimezoneOffset 0) noon_2024_03_15 true headerOnly)
             Hshort).
  - repeat (split; [assumption|]).
    exact (proj2 (C8_header_only_returns_early (Engine.dateParse 0)
                    (Engine.getTimezoneOffset 0) noon_2024_03_15 true noEventDocument)
             Hlong Hname Htime Hskipped).
Defined.

(** * The further properties at concrete inputs *)

Lemma parseCSVLine_fields_clean_witness :
  "b" ∈ parseCSVLine " a , b "
  /\ JS.trim "b" = "b" /\ countChar "," "b" = 0%nat.
Proof.
  assert ("b" ∈ parseCSVLine " a , b ") as Hin.
  { change (parseCSVLine " a , b ") with ["a"; "b"]. right. left. }
  split; [exact Hin|].
  exact (parseCSVLine_fields_clean " a , b " "b" Hin).
Defined.

Lemma processCSV_ignores_outer_space_witness :
  allWhiteSpace (String "010" EmptyString) = true
  /\ processCSV (Engine.dateParse 0) (Engine.getTimezoneOffset 0) noon_2024_03_15 true
       (String "010" EmptyString +:+ scenario1 +:+ String "010" EmptyString)
     = processCSV (Engine.dateParse 0) (Engine.getTimezoneOffset 0) noon_2024_03_15 true
         scenario1.
Proof.
  split; [reflexivity|].
  apply (processCSV_ignores_outer_space (Engine.dateParse 0) (Engine.getTimezoneOffset 0)
           noon_2024_03_15 true (String "010" EmptyString) scenario1
           (String "010" EmptyString)); reflexivity.
Defined.

Lemma resolveColumn_first_match_witness :
  resolveColumn "timestamp" scenario1 <> -1
  /\ exists i label,
       resolveColumn "timestamp" scenario1 = Z.of_nat i
       /\ headerLabels scenario1 !! i = Some label
       /\ JS.includes "timestamp" label = true
       /\ forall j other, (j < i)%nat -> headerLabels scenario1 !! j = Some other ->
            JS.includes "timestamp" other = false.
Proof.
  assert (resolveColumn "timestamp" scenario1 <> -1) as Hne
    by (vm_compute; discriminate).
  split; [exact Hne|].
  exact (proj2 (resolveColumn_first_match "timestamp" scenario1) Hne).
Defined.

Lemma skipped_row_has_no_effect_witness :
  (exists ts, JS.at_ (parseCSVLine "Carol,not-a-date") 1 = Some ts
     /\ Engine.dateParse 0 (JS.replace " " "T" ts) = None)
  /\ forLoop (Engine.dateParse 0) (Engine.getTimezoneOffset 0) noon_2024_03_15
       "2024-03-15" 0 1 initialState
       (["Alice,2024-03-15 08:00:00"] ++ "Carol,not-a-date" :: ["Bob,2024-03-15 08:05:00"])
     = forLoop (Engine.dateParse 0) (Engine.getTimezoneOffset 0) noon_2024_03_15
         "2024-03-15" 0 1 initialState
         (["Alice,2024-03-15 08:00:00"] ++ ["Bob,2024-03-15 08:05:00"]).
Proof.
  assert (exists ts, JS.at_ (parseCSVLine "Carol,not-a-date") 1 = Some ts
            /\ Engine.dateParse 0 (JS.replace " " "T" ts) = None) as Hskip
    by (exists "not-a-date"; split; reflexivity).
  split; [exact Hskip|].
  apply (skipped_row_has_no_effect (Engine.dateParse 0) (Engine.getTimezoneOffset 0)
           noon_2024_03_15 "2024-03-15" 0 1 initialState).
  right. right. exact Hskip.
Defined.

Lemma row_order_does_not_matter_witness :
  exists st1,
    forLoop (Engine.dateParse 0) (Engine.getTimezoneOffset 0) noon_2024_03_15
      "2024-03-15" 0 1 initialState
      ["Alice,2024-03-15 08:00:00"; "Bob,2024-03-15 08:05:00"] = inr st1
    /\ exists st2,
         forLoop (Engine.dateParse 0) (Engine.getTimezoneOffset 0) noon_2024_03_15
           "2024-03-15" 0 1 initialState
           ["Bob,2024-03-15 08:05:00"; "Alice,2024-03-15 08:00:00"] = inr st2
         /\ uniqueWorkersToday st2 = uniqueWorkersToday st1
         /\ data st2 ≡ₚ data st1.
Proof.
  eexists. split; [vm_compute; reflexivity|].
  apply (row_order_does_not_matter (Engine.dateParse 0) (Engine.getTimezoneOffset 0)
           noon_2024_03_15 "2024-03-15" 0 1 initialState
           ["Alice,2024-03-15 08:00:00"; "Bob,2024-03-15 08:05:00"]).
  - apply perm_swap.
  - vm_compute; reflexivity.
Defined.

Lemma out_of_range_row_throws_witness :
  JS.trim edgeRow <> EmptyString
  /\ (2 <= length (parseCSVLine edgeRow))%nat
  /\ JSDate.validTime (JSDate.maxTime - Engine.getTimezoneOffset (-60) JSDate.maxTime * 60000)
     = false
  /\ forLoop edgeParse (Engine.getTimezoneOffset (-60)) noon_2024_03_15
       "2024-03-15" 0 1 initialState [edgeRow; "Alice,2024-03-15 08:00:00"]
     = inl RangeError.
Proof.
  split; [vm_compute; discriminate|]. split; [vm_compute; lia|].
  split; [reflexivity|].
  apply (out_of_range_row_throws edgeParse (Engine.getTimezoneOffset (-60))
           noon_2024_03_15 "2024-03-15" 0 1 initialState edgeRow
           "+275760-09-13 00:00:00Z" JSDate.maxTime).
  - vm_compute; discriminate.
  - vm_compute; lia.
  - reflexivity.
  - reflexivity.
  - reflexivity.
Defined.

Lemma processCSV_does_not_throw_witness :
  resolveColumn "timestamp" scenario1 < 2
  /\ forall e,
       processCSV (Engine.dateParse 0) (Engine.getTimezoneOffset 0) noon_2024_03_15 true
         scenario1 <> Thrown e.
Proof.
  split; [reflexivity|].
  apply (processCSV_does_not_throw (Engine.dateParse 0) (Engine.getTimezoneOffset 0)
           noon_2024_03_15 true scenario1).
  - reflexivity.
  - reflexivity.
  - change (documentEvents (Engine.dateParse 0) scenario1)
      with [Entry (Some "Alice") "2024-03-15 08:00:00" "2024-03-15" 1710489600000;
            Entry (Some "Bob") "2024-03-15 08:05:00" "2024-03-15" 1710489900000;
            Entry (Some "Alice") "2024-03-14 09:00:00" "2024-03-14" 1710406800000].
    repeat constructor.
Defined.

Lemma painted_rows_are_of_today_witness :
  let e := Entry (Some "Bob") "2024-03-15 08:05:00" "2024-03-15" 1710489900000 in
  processCSV (Engine.dateParse 0) (Engine.getTimezoneOffset 0) noon_2024_03_15 true
    scenario1 = Updated scenario1Stats (Some scenario1Rows)
  /\ e ∈ scenario1Rows
  /\ date e = todayString noon_2024_03_15
  /\ datePart e = todayString noon_2024_03_15
  /\ JS.trim (timestamp e) = timestamp e
  /\ Engine.dateParse 0 (JS.replace " " "T" (timestamp e)) = Some (isoTime e).
Proof.
  intros e.
  assert (processCSV (Engine.dateParse 0) (Engine.getTimezoneOffset 0) noon_2024_03_15
            true scenario1 = Updated scenario1Stats (Some scenario1Rows)) as Hrun
    by (vm_compute; reflexivity).
  assert (e ∈ scenario1Rows) as Hin by left.
  split; [exact Hrun|]. split; [exact Hin|].
  exact (painted_rows_are_of_today (Engine.dateParse 0) (Engine.getTimezoneOffset 0)
           noon_2024_03_15 true scenario1 scenario1Stats scenario1Rows e Hrun Hin).
Defined.

Lemma count_bounded_by_rows_witness :
  processCSV (Engine.dateParse 0) (Engine.getTimezoneOffset 0) noon_2024_03_15 true
    scenario1 = Updated scenario1Stats (Some scenario1Rows)
  /\ (countToday scenario1Stats <= length scenario1Rows)%nat
  /\ (countToday scenario1Stats = 0%nat <-> scenario1Rows = []).
Proof.
  assert (processCSV (Engine.dateParse 0) (Engine.getTimezoneOffset 0) noon_2024_03_15
            true scenario1 = Updated scenario1Stats (Some scenario1Rows)) as Hrun
    by (vm_compute; reflexivity).
  split; [exact Hrun|].
  exact (count_bounded_by_rows (Engine.dateParse 0) (Engine.getTimezoneOffset 0)
           noon_2024_03_15 true scenario1 scenario1Stats scenario1Rows Hrun).
Defined.

Lemma last_access_is_first_row_witness :
  let e := Entry (Some "Bob") "2024-03-15 08:05:00" "2024-03-15" 1710489900000 in
  latestEvent (filter afterEpoch (documentEvents (Engine.dateParse 0) scenario1)) = Some e
  /\ onDay (todayString noon_2024_03_15) e
  /\ exists rest, scenario1Rows = e :: rest
       /\ lastWorker scenario1Stats = name e /\ lastTime scenario1Stats = timestamp e.
Proof.
  intros e.
  assert (latestEvent (filter afterEpoch (documentEvents (Engine.dateParse 0) scenario1))
          = Some e) as Hlatest by (vm_compute; reflexivity).
  assert (onDay (todayString noon_2024_03_15) e) as Hday by reflexivity.
  split; [exact Hlatest|]. split; [exact Hday|].
  apply (last_access_is_first_row (Engine.dateParse 0) (Engine.getTimezoneOffset 0)
           noon_2024_03_15 true scenario1 scenario1Stats scenario1Rows e);
    [vm_compute; reflexivity|exact Hlatest|exact Hday].
Defined.

Lemma date_and_time_cells_witness :
  beforeFirst " " "2024-03-15 08:05:00" = "2024-03-15"
  /\ timeOnly "2024-03-15 08:05:00" = "08:05:00"
  /\ beforeFirst " " "2024-03-15 08:05:00"
       +:+ String " " (timeOnly "2024-03-15 08:05:00") = "2024-03-15 08:05:00".
Proof.
  apply (proj2 (date_and_time_cells "2024-03-15 08:05:00") "2024-03-15" "08:05:00").
  - reflexivity.
  - reflexivity.
  - reflexivity.
  - discriminate.
Defined.

Lemma no_records_message_ends_hidden_witness :
  exists stats rows,
    processCSV (Engine.dateParse 0) (Engine.getTimezoneOffset 0) noon_2024_03_15 true
      yesterdayDocument = Updated stats rows
    /\ fetchData (Engine.dateParse 0) (Engine.getTimezoneOffset 0) noon_2024_03_15
         (Some yesterdayDocument) freshPage
       = Page (Some stats) (Some []) (Some (Banner "none" noRecordsMessage)).
Proof.
  eexists _, _. split; [vm_compute; reflexivity|].
  apply (no_records_message_ends_hidden (Engine.dateParse 0) (Engine.getTimezoneOffset 0)
           noon_2024_03_15 freshPage (Banner "none" "") yesterdayDocument _ (Some [])).
  - reflexivity.
  - reflexivity.
  - vm_compute; reflexivity.
  - vm_compute; reflexivity.
Defined.

Lemma short_row_is_shown_as_waiting_witness :
  "1,Bob" ∈ drop 1 (documentLines shortRowDocument)
  /\ fetchData (Engine.dateParse 0) (Engine.getTimezoneOffset 0) noon_2024_03_15
       (Some shortRowDocument) freshPage
     = Page None (Some []) (Some (Banner "block" waitingMessage)).
Proof.
  assert ("1,Bob" ∈ drop 1 (documentLines shortRowDocument)) as Hin.
  { change (drop 1 (documentLines shortRowDocument))
      with ["1,Bob"; "2,Alice,2024-03-15 08:00:00"]. left. }
  split; [exact Hin|].
  apply (short_row_is_shown_as_waiting (Engine.dateParse 0) (Engine.getTimezoneOffset 0)
           noon_2024_03_15 freshPage shortRowDocument "1,Bob").
  - vm_compute; lia.
  - vm_compute; discriminate.
  - vm_compute; discriminate.
  - exact Hin.
  - vm_compute; discriminate.
  - vm_compute; lia.
  - vm_compute; discriminate.
Defined.
